(** * LibSerial: the unbuffered serial stream buffer (src/src/SerialStreamBuf.cc)

    A shallow embedding of [SerialStreamBuf::Implementation] and of the
    [SerialStreamBuf] members that own the descriptor ([is_open], [open],
    [close]).  The object is the record [Implementation]; the operating
    system is a world [W] reached only through the system calls of the
    class [Posix]; every member function takes the object and the world
    and returns its C++ result together with the new object and world. *)

From stdpp Require Import base list numbers strings.

Local Open Scope Z_scope.

(** ** Platform constants

    Values of <termios.h>, <fcntl.h> and <unistd.h> on Linux (asm-generic),
    written in hexadecimal; the octal spelling of the header is in the
    comment. *)
Module Sys.

Definition IGNBRK  : Z := 0x1.          (* 0000001 *)
Definition ISTRIP  : Z := 0x20.         (* 0000040 *)
Definition IXON    : Z := 0x400.        (* 0002000 *)
Definition IXOFF   : Z := 0x1000.       (* 0010000 *)

Definition CBAUD   : Z := 0x100F.       (* 0010017 *)
Definition CSIZE   : Z := 0x30.         (* 0000060 *)
Definition CS5     : Z := 0x0.
Definition CS6     : Z := 0x10.         (* 0000020 *)
Definition CS7     : Z := 0x20.         (* 0000040 *)
Definition CS8     : Z := 0x30.         (* 0000060 *)
Definition CSTOPB  : Z := 0x40.         (* 0000100 *)
Definition CREAD   : Z := 0x80.         (* 0000200 *)
Definition PARENB  : Z := 0x100.        (* 0000400 *)
Definition PARODD  : Z := 0x200.        (* 0001000 *)
Definition CLOCAL  : Z := 0x800.        (* 0004000 *)
Definition CRTSCTS : Z := 0x80000000.   (* 020000000000 *)

Definition VTIME  : nat := 5.
Definition VMIN   : nat := 6.
Definition VSTART : nat := 8.
Definition VSTOP  : nat := 9.
Definition NCCS   : nat := 32.

Definition B50      : Z := 1.
Definition B75      : Z := 2.
Definition B110     : Z := 3.
Definition B134     : Z := 4.
Definition B150     : Z := 5.
Definition B200     : Z := 6.
Definition B300     : Z := 7.
Definition B600     : Z := 8.
Definition B1200    : Z := 9.
Definition B1800    : Z := 10.
Definition B2400    : Z := 11.
Definition B4800    : Z := 12.
Definition B9600    : Z := 13.
Definition B19200   : Z := 14.
Definition B38400   : Z := 15.
Definition B57600   : Z := 0x1001.
Definition B115200  : Z := 0x1002.
Definition B230400  : Z := 0x1003.
Definition B460800  : Z := 0x1004.
Definition B500000  : Z := 0x1005.
Definition B576000  : Z := 0x1006.
Definition B921600  : Z := 0x1007.
Definition B1000000 : Z := 0x1008.
Definition B1152000 : Z := 0x1009.
Definition B1500000 : Z := 0x100A.
Definition B2000000 : Z := 0x100B.
Definition B2500000 : Z := 0x100C.
Definition B3000000 : Z := 0x100D.
Definition B3500000 : Z := 0x100E.
Definition B4000000 : Z := 0x100F.

Definition TCSANOW   : Z := 0.
Definition TCIOFLUSH : Z := 2.

Definition O_RDONLY   : Z := 0.
Definition O_WRONLY   : Z := 1.
Definition O_RDWR     : Z := 2.
Definition O_NOCTTY   : Z := 0x100.     (* 0400 *)
Definition O_NONBLOCK : Z := 0x800.     (* 04000 *)

Definition _POSIX_VDISABLE : Z := 0.

(** [std::ios_base::in] and [std::ios_base::out] (libstdc++). *)
Definition ios_in  : Z := 8.
Definition ios_out : Z := 16.

End Sys.

(** ** [std::char_traits<char>]

    [int_type] is [int], a [Z].  A [char] is kept as the unsigned value of
    its eight bits, so [to_char_type] keeps the low byte of its argument
    and [to_int_type], which goes through [unsigned char], is the
    identity on that representation. *)
Module traits_type.

Definition eof : Z := -1.

Definition eq_int_type (c1 c2 : Z) : bool := c1 =? c2.

Definition to_char_type (c : Z) : Z := c mod 256.

Definition to_int_type (ch : Z) : Z := ch mod 256.

Definition not_eof (c : Z) : Z := if eq_int_type c eof then 0 else c.

End traits_type.

(** ** The terminal attribute block [struct termios]

    Flag words are [tcflag_t] (unsigned, 32 bits).  [x &= ~M] is written
    [Z.land x (Z.lnot M)] and [x |= M] is [Z.lor x M]; on a word in
    [0, 2^32) both stay in that range, so no wrap-around is needed. *)
Record termios := mk_termios {
  c_iflag : Z;
  c_oflag : Z;
  c_cflag : Z;
  c_lflag : Z;
  c_line  : Z;
  c_cc    : list Z
}.

Definition set_c_iflag (v : Z) (t : termios) : termios :=
  mk_termios v (c_oflag t) (c_cflag t) (c_lflag t) (c_line t) (c_cc t).

Definition set_c_oflag (v : Z) (t : termios) : termios :=
  mk_termios (c_iflag t) v (c_cflag t) (c_lflag t) (c_line t) (c_cc t).

Definition set_c_cflag (v : Z) (t : termios) : termios :=
  mk_termios (c_iflag t) (c_oflag t) v (c_lflag t) (c_line t) (c_cc t).

Definition set_c_lflag (v : Z) (t : termios) : termios :=
  mk_termios (c_iflag t) (c_oflag t) (c_cflag t) v (c_line t) (c_cc t).

Definition set_c_line (v : Z) (t : termios) : termios :=
  mk_termios (c_iflag t) (c_oflag t) (c_cflag t) (c_lflag t) v (c_cc t).

Definition set_c_cc (v : list Z) (t : termios) : termios :=
  mk_termios (c_iflag t) (c_oflag t) (c_cflag t) (c_lflag t) (c_line t) v.

(** [t.c_cc[i]], a [cc_t]; [0] stands for a slot outside the array. *)
Definition cc (t : termios) (i : nat) : Z := nth i (c_cc t) 0.

(** [flags & MASK] used as a C condition. *)
Definition flag_set (flags mask : Z) : bool := negb (Z.land flags mask =? 0).

(** ** The system calls

    What [read(2)] hands back: [RError] is the return value [-1],
    [RData l] is the return value [length l] with the bytes [l] stored at
    the start of the caller's buffer ([RData []] is the return value 0). *)
Inductive read_result :=
  | RError
  | RData (l : list Z).

Definition retval_of (r : read_result) : Z :=
  match r with
  | RError => -1
  | RData l => Z.of_nat (length l)
  end.

Definition data_of (r : read_result) : list Z :=
  match r with
  | RError => []
  | RData l => l
  end.

(** The interface the source sees of the operating system and of libc.
    An [int] result is a [Z] ([-1] is failure); [tcgetattr] yields [None]
    for [-1] and the attribute block otherwise.  [tcgetattr] and
    [fcntl(F_GETFL)] only observe the world. *)
Class Posix (W : Type) := {
  sys_open    : string -> Z -> W -> Z * W;
  sys_close   : Z -> W -> Z * W;
  sys_read    : Z -> Z -> W -> read_result * W;
  fcntl_getfl : Z -> W -> Z;
  fcntl_setfl : Z -> Z -> W -> Z * W;
  tcflush     : Z -> Z -> W -> Z * W;
  tcgetattr   : Z -> W -> option termios;
  tcsetattr   : Z -> Z -> termios -> W -> Z * W;
  cfsetispeed : termios -> Z -> termios;
  cfsetospeed : termios -> Z -> termios;
  cfgetispeed : termios -> Z;
  cfgetospeed : termios -> Z;
  sys_read_bound : forall fd n w l w',
    sys_read fd n w = (RData l, w') -> Z.of_nat (length l) <= n;
  sys_read_bytes : forall fd n w l w',
    sys_read fd n w = (RData l, w') -> Forall (fun b => 0 <= b < 256) l
}.

(** ** The enumerations of the header

    Modelled from the spec: the closed enumerations of [SerialStreamBuf.h],
    which is not among the sources (BaudRate, CharacterSize, Parity,
    FlowControl, each with an Invalid sentinel); the enumerators are the
    ones the source and the tests name. *)
Inductive BaudRate :=
  | BAUD_50 | BAUD_75 | BAUD_110 | BAUD_134 | BAUD_150 | BAUD_200
  | BAUD_300 | BAUD_600 | BAUD_1200 | BAUD_1800 | BAUD_2400 | BAUD_4800
  | BAUD_9600 | BAUD_19200 | BAUD_38400 | BAUD_57600 | BAUD_115200
  | BAUD_230400 | BAUD_460800 | BAUD_500000 | BAUD_576000 | BAUD_921600
  | BAUD_1000000 | BAUD_1152000 | BAUD_1500000 | BAUD_2000000
  | BAUD_2500000 | BAUD_3000000 | BAUD_3500000 | BAUD_4000000
  | BAUD_INVALID.

Inductive CharSize :=
  | CHAR_SIZE_5 | CHAR_SIZE_6 | CHAR_SIZE_7 | CHAR_SIZE_8
  | CHAR_SIZE_INVALID.

Inductive ParityEnum :=
  | PARITY_EVEN | PARITY_ODD | PARITY_NONE | PARITY_INVALID.

Inductive FlowControlEnum :=
  | FLOW_CONTROL_HARD | FLOW_CONTROL_SOFT | FLOW_CONTROL_NONE
  | FLOW_CONTROL_INVALID.

#[global] Instance BaudRate_eq_dec : EqDecision BaudRate.
Proof. solve_decision. Defined.

#[global] Instance CharSize_eq_dec : EqDecision CharSize.
Proof. solve_decision. Defined.

#[global] Instance ParityEnum_eq_dec : EqDecision ParityEnum.
Proof. solve_decision. Defined.

#[global] Instance FlowControlEnum_eq_dec : EqDecision FlowControlEnum.
Proof. solve_decision. Defined.

(** Modelled from the spec: the control codes [CTRL_Q] and [CTRL_S] of the
    absent header, the fixed software flow control codes ^Q (start) and ^S
    (stop); the source's own comments give 0x11 and 0x13. *)
Definition CTRL_Q : Z := 0x11.
Definition CTRL_S : Z := 0x13.

(** What else the source takes from the absent header, kept as a
    parameter: the [DEFAULT_*] members and the integer values of the
    unscoped enumerators, which [SetParametersToDefault] compares with
    [-1]. *)
Record Header := mk_Header {
  DEFAULT_BAUD            : BaudRate;
  DEFAULT_CHAR_SIZE       : CharSize;
  DEFAULT_NO_OF_STOP_BITS : Z;
  DEFAULT_PARITY          : ParityEnum;
  DEFAULT_FLOW_CONTROL    : FlowControlEnum;
  DEFAULT_VMIN            : Z;
  DEFAULT_VTIME           : Z;
  ParityEnum_value        : ParityEnum -> Z;
  FlowControlEnum_value   : FlowControlEnum -> Z
}.

(** Modelled from the spec: the values of the [BaudRate] enumerators of
    the absent header, the bit patterns of the device control descriptor.
    These are the case labels [SetBaudRate] accepts, each with the
    [speed_t] that [static_cast<speed_t>(baud_rate)] gives it, the speed
    code that [GetBaudRate] maps back.  [None] is the [default:] arm. *)
Definition SetBaudRate_case (baud_rate : BaudRate) : option Z :=
  match baud_rate with
  | BAUD_50 => Some Sys.B50
  | BAUD_75 => Some Sys.B75
  | BAUD_110 => Some Sys.B110
  | BAUD_134 => Some Sys.B134
  | BAUD_150 => Some Sys.B150
  | BAUD_200 => Some Sys.B200
  | BAUD_300 => Some Sys.B300
  | BAUD_600 => Some Sys.B600
  | BAUD_1200 => Some Sys.B1200
  | BAUD_1800 => Some Sys.B1800
  | BAUD_2400 => Some Sys.B2400
  | BAUD_4800 => Some Sys.B4800
  | BAUD_9600 => Some Sys.B9600
  | BAUD_19200 => Some Sys.B19200
  | BAUD_38400 => Some Sys.B38400
  | BAUD_57600 => Some Sys.B57600
  | BAUD_115200 => Some Sys.B115200
  | _ => None
  end.

(** The [switch] of [GetBaudRate]. *)
Definition GetBaudRate_case (input_baud : Z) : BaudRate :=
  if input_baud =? Sys.B50 then BAUD_50
  else if input_baud =? Sys.B75 then BAUD_75
  else if input_baud =? Sys.B110 then BAUD_110
  else if input_baud =? Sys.B134 then BAUD_134
  else if input_baud =? Sys.B150 then BAUD_150
  else if input_baud =? Sys.B200 then BAUD_200
  else if input_baud =? Sys.B300 then BAUD_300
  else if input_baud =? Sys.B600 then BAUD_600
  else if input_baud =? Sys.B1200 then BAUD_1200
  else if input_baud =? Sys.B1800 then BAUD_1800
  else if input_baud =? Sys.B2400 then BAUD_2400
  else if input_baud =? Sys.B4800 then BAUD_4800
  else if input_baud =? Sys.B9600 then BAUD_9600
  else if input_baud =? Sys.B19200 then BAUD_19200
  else if input_baud =? Sys.B38400 then BAUD_38400
  else if input_baud =? Sys.B57600 then BAUD_57600
  else if input_baud =? Sys.B115200 then BAUD_115200
  else BAUD_INVALID.

(** Modelled from the spec: the values of the [CharSize] enumerators of
    the absent header, the bit patterns of the device control descriptor.
    These are the case labels [SetCharSize] accepts, each with the
    [tcflag_t] that [static_cast<tcflag_t>(char_size)] gives it, the size
    bits that [GetCharSize] maps back.  [None] is the [default:] arm. *)
Definition SetCharSize_case (char_size : CharSize) : option Z :=
  match char_size with
  | CHAR_SIZE_5 => Some Sys.CS5
  | CHAR_SIZE_6 => Some Sys.CS6
  | CHAR_SIZE_7 => Some Sys.CS7
  | CHAR_SIZE_8 => Some Sys.CS8
  | CHAR_SIZE_INVALID => None
  end.

(** ** The object *)
Record Implementation := mk_Implementation {
  mPutbackChar      : Z;
  mPutbackAvailable : bool;
  mFileDescriptor   : Z
}.

(** [Implementation::Implementation()] *)
Definition Implementation_new : Implementation :=
  mk_Implementation 0 false (-1).

Definition set_mPutbackChar (c : Z) (s : Implementation) : Implementation :=
  mk_Implementation c (mPutbackAvailable s) (mFileDescriptor s).

Definition set_mPutbackAvailable (b : bool) (s : Implementation) : Implementation :=
  mk_Implementation (mPutbackChar s) b (mFileDescriptor s).

Definition set_mFileDescriptor (fd : Z) (s : Implementation) : Implementation :=
  mk_Implementation (mPutbackChar s) (mPutbackAvailable s) fd.

(** [SerialStreamBuf::is_open] *)
Definition is_open (s : Implementation) : bool :=
  negb (-1 =? mFileDescriptor s).

(** ** Putback: [pbackfail] *)
Definition pbackfail (c : Z) (s : Implementation) : Z * Implementation :=
  if -1 =? mFileDescriptor s then (traits_type.eof, s)
  else if mPutbackAvailable s then (traits_type.eof, s)
  else if traits_type.eq_int_type c traits_type.eof then (traits_type.eof, s)
  else
    let s1 := set_mPutbackChar (traits_type.to_char_type c) s in
    let s2 := set_mPutbackAvailable true s1 in
    (traits_type.not_eof c, s2).

Section Stream.

Context {W : Type} `{Posix W} (hdr : Header).

(** ** The attribute getters and setters *)

Definition GetBaudRate (s : Implementation) (w : W) : BaudRate :=
  if -1 =? mFileDescriptor s then BAUD_INVALID
  else
    match tcgetattr (mFileDescriptor s) w with
    | None => BAUD_INVALID
    | Some term_setting =>
        let input_baud := cfgetispeed term_setting in
        let output_baud := cfgetospeed term_setting in
        if negb (input_baud =? output_baud) then BAUD_INVALID
        else GetBaudRate_case input_baud
    end.

Definition SetBaudRate (baud_rate : BaudRate) (s : Implementation) (w : W)
  : BaudRate * W :=
  if -1 =? mFileDescriptor s then (BAUD_INVALID, w)
  else
    match SetBaudRate_case baud_rate with
    | Some speed =>
        match tcgetattr (mFileDescriptor s) w with
        | None => (BAUD_INVALID, w)
        | Some term_setting =>
            let term_setting := cfsetispeed term_setting speed in
            let term_setting := cfsetospeed term_setting speed in
            let '(r, w1) :=
              tcsetattr (mFileDescriptor s) Sys.TCSANOW term_setting w in
            if -1 =? r then (BAUD_INVALID, w1)
            else (GetBaudRate s w1, w1)
        end
    | None => (BAUD_INVALID, w)
    end.

Definition GetCharSize (s : Implementation) (w : W) : CharSize :=
  if -1 =? mFileDescriptor s then CHAR_SIZE_INVALID
  else
    match tcgetattr (mFileDescriptor s) w with
    | None => CHAR_SIZE_INVALID
    | Some term_setting =>
        let char_size := Z.land (c_cflag term_setting) Sys.CSIZE in
        if char_size =? Sys.CS5 then CHAR_SIZE_5
        else if char_size =? Sys.CS6 then CHAR_SIZE_6
        else if char_size =? Sys.CS7 then CHAR_SIZE_7
        else if char_size =? Sys.CS8 then CHAR_SIZE_8
        else CHAR_SIZE_INVALID
    end.

Definition SetCharSize (char_size : CharSize) (s : Implementation) (w : W)
  : CharSize * W :=
  if -1 =? mFileDescriptor s then (CHAR_SIZE_INVALID, w)
  else
    match SetCharSize_case char_size with
    | Some size_bits =>
        match tcgetattr (mFileDescriptor s) w with
        | None => (CHAR_SIZE_INVALID, w)
        | Some term_setting =>
            let term_setting :=
              if decide (char_size = CHAR_SIZE_8)
              then set_c_iflag
                     (Z.land (c_iflag term_setting) (Z.lnot Sys.ISTRIP))
                     term_setting
              else set_c_iflag
                     (Z.lor (c_iflag term_setting) Sys.ISTRIP)
                     term_setting in
            let term_setting :=
              set_c_cflag (Z.land (c_cflag term_setting) (Z.lnot Sys.CSIZE))
                          term_setting in
            let term_setting :=
              set_c_cflag (Z.lor (c_cflag term_setting) size_bits)
                          term_setting in
            let '(r, w1) :=
              tcsetattr (mFileDescriptor s) Sys.TCSANOW term_setting w in
            if -1 =? r then (CHAR_SIZE_INVALID, w1)
            else (GetCharSize s w1, w1)
        end
    | None => (CHAR_SIZE_INVALID, w)
    end.

Definition GetNumOfStopBits (s : Implementation) (w : W) : Z :=
  if -1 =? mFileDescriptor s then 0
  else
    match tcgetattr (mFileDescriptor s) w with
    | None => 0
    | Some term_setting =>
        if flag_set (c_cflag term_setting) Sys.CSTOPB then 2 else 1
    end.

Definition SetNumOfStopBits (stop_bits : Z) (s : Implementation) (w : W)
  : Z * W :=
  if -1 =? mFileDescriptor s then (0, w)
  else
    match tcgetattr (mFileDescriptor s) w with
    | None => (0, w)
    | Some term_setting =>
        let finish (term_setting : termios) :=
          let '(r, w1) :=
            tcsetattr (mFileDescriptor s) Sys.TCSANOW term_setting w in
          if -1 =? r then (0, w1)
          else (GetNumOfStopBits s w1, w1) in
        if stop_bits =? 1 then
          finish (set_c_cflag
                    (Z.land (c_cflag term_setting) (Z.lnot Sys.CSTOPB))
                    term_setting)
        else if stop_bits =? 2 then
          finish (set_c_cflag (Z.lor (c_cflag term_setting) Sys.CSTOPB)
                              term_setting)
        else (0, w)
    end.

Definition GetParity (s : Implementation) (w : W) : ParityEnum :=
  if -1 =? mFileDescriptor s then PARITY_INVALID
  else
    match tcgetattr (mFileDescriptor s) w with
    | None => PARITY_INVALID
    | Some term_setting =>
        if flag_set (c_cflag term_setting) Sys.PARENB then
          if flag_set (c_cflag term_setting) Sys.PARODD then PARITY_ODD
          else PARITY_EVEN
        else PARITY_NONE
    end.

Definition SetParity (parity : ParityEnum) (s : Implementation) (w : W)
  : ParityEnum * W :=
  if -1 =? mFileDescriptor s then (PARITY_INVALID, w)
  else
    match tcgetattr (mFileDescriptor s) w with
    | None => (PARITY_INVALID, w)
    | Some term_setting =>
        let finish (term_setting : termios) :=
          let '(r, w1) :=
            tcsetattr (mFileDescriptor s) Sys.TCSANOW term_setting w in
          if -1 =? r then (PARITY_INVALID, w1)
          else (GetParity s w1, w1) in
        match parity with
        | PARITY_EVEN =>
            let term_setting :=
              set_c_cflag (Z.lor (c_cflag term_setting) Sys.PARENB)
                          term_setting in
            finish (set_c_cflag
                      (Z.land (c_cflag term_setting) (Z.lnot Sys.PARODD))
                      term_setting)
        | PARITY_ODD =>
            let term_setting :=
              set_c_cflag (Z.lor (c_cflag term_setting) Sys.PARENB)
                          term_setting in
            finish (set_c_cflag (Z.lor (c_cflag term_setting) Sys.PARODD)
                                term_setting)
        | PARITY_NONE =>
            finish (set_c_cflag
                      (Z.land (c_cflag term_setting) (Z.lnot Sys.PARENB))
                      term_setting)
        | PARITY_INVALID => (PARITY_INVALID, w)
        end
    end.

Definition GetFlowControl (s : Implementation) (w : W) : FlowControlEnum :=
  if -1 =? mFileDescriptor s then FLOW_CONTROL_INVALID
  else
    match tcgetattr (mFileDescriptor s) w with
    | None => FLOW_CONTROL_INVALID
    | Some tset =>
        if flag_set (c_iflag tset) Sys.IXON
           && flag_set (c_iflag tset) Sys.IXOFF
           && (CTRL_Q =? cc tset Sys.VSTART)
           && (CTRL_S =? cc tset Sys.VSTOP)
        then FLOW_CONTROL_SOFT
        else if negb (flag_set (c_iflag tset) Sys.IXON
                      || flag_set (c_iflag tset) Sys.IXOFF)
        then
          if flag_set (c_cflag tset) Sys.CRTSCTS then FLOW_CONTROL_HARD
          else FLOW_CONTROL_NONE
        else FLOW_CONTROL_INVALID
    end.

Definition SetFlowControl (flow_c : FlowControlEnum) (s : Implementation)
  (w : W) : FlowControlEnum * W :=
  if -1 =? mFileDescriptor s then (FLOW_CONTROL_INVALID, w)
  else
    let '(r0, w0) := tcflush (mFileDescriptor s) Sys.TCIOFLUSH w in
    if -1 =? r0 then (FLOW_CONTROL_INVALID, w0)
    else
      match tcgetattr (mFileDescriptor s) w0 with
      | None => (FLOW_CONTROL_INVALID, w0)
      | Some tset =>
          let tset :=
            if decide (FLOW_CONTROL_HARD = flow_c) then
              let tset :=
                set_c_iflag
                  (Z.land (c_iflag tset) (Z.lnot (Z.lor Sys.IXON Sys.IXOFF)))
                  tset in
              let tset :=
                set_c_cflag (Z.lor (c_cflag tset) Sys.CRTSCTS) tset in
              let tset :=
                set_c_cc (<[Sys.VSTART := Sys._POSIX_VDISABLE]> (c_cc tset))
                         tset in
              set_c_cc (<[Sys.VSTOP := Sys._POSIX_VDISABLE]> (c_cc tset)) tset
            else if decide (FLOW_CONTROL_SOFT = flow_c) then
              let tset :=
                set_c_iflag
                  (Z.lor (c_iflag tset) (Z.lor Sys.IXON Sys.IXOFF)) tset in
              let tset :=
                set_c_cflag (Z.land (c_cflag tset) (Z.lnot Sys.CRTSCTS))
                            tset in
              let tset :=
                set_c_cc (<[Sys.VSTART := CTRL_Q]> (c_cc tset)) tset in
              set_c_cc (<[Sys.VSTOP := CTRL_S]> (c_cc tset)) tset
            else
              let tset :=
                set_c_iflag
                  (Z.land (c_iflag tset) (Z.lnot (Z.lor Sys.IXON Sys.IXOFF)))
                  tset in
              set_c_cflag (Z.land (c_cflag tset) (Z.lnot Sys.CRTSCTS)) tset in
          let '(r, w1) := tcsetattr (mFileDescriptor s) Sys.TCSANOW tset w0 in
          if -1 =? r then (FLOW_CONTROL_INVALID, w1)
          else (GetFlowControl s w1, w1)
      end.

Definition GetVMin (s : Implementation) (w : W) : Z :=
  if -1 =? mFileDescriptor s then -1
  else
    match tcgetattr (mFileDescriptor s) w with
    | None => -1
    | Some term_setting => cc term_setting Sys.VMIN
    end.

(** [(cc_t)vmin] keeps the low byte. *)
Definition SetVMin (vmin : Z) (s : Implementation) (w : W) : Z * W :=
  if -1 =? mFileDescriptor s then (-1, w)
  else if (vmin <? 0) || (vmin >? 255) then (-1, w)
  else
    match tcgetattr (mFileDescriptor s) w with
    | None => (-1, w)
    | Some term_setting =>
        let term_setting :=
          set_c_cc (<[Sys.VMIN := vmin mod 256]> (c_cc term_setting))
                   term_setting in
        let '(r, w1) :=
          tcsetattr (mFileDescriptor s) Sys.TCSANOW term_setting w in
        if -1 =? r then (-1, w1)
        else (vmin, w1)
    end.

Definition GetVTime (s : Implementation) (w : W) : Z :=
  if -1 =? mFileDescriptor s then -1
  else
    match tcgetattr (mFileDescriptor s) w with
    | None => -1
    | Some term_setting => cc term_setting Sys.VTIME
    end.

Definition SetVTime (vtime : Z) (s : Implementation) (w : W) : Z * W :=
  if -1 =? mFileDescriptor s then (-1, w)
  else if (vtime <? 0) || (vtime >? 255) then (-1, w)
  else
    match tcgetattr (mFileDescriptor s) w with
    | None => (-1, w)
    | Some term_setting =>
        let term_setting :=
          set_c_cc (<[Sys.VTIME := vtime mod 256]> (c_cc term_setting))
                   term_setting in
        let '(r, w1) :=
          tcsetattr (mFileDescriptor s) Sys.TCSANOW term_setting w in
        if -1 =? r then (-1, w1)
        else (vtime, w1)
    end.

(** ** The stream primitives

    The caller's array [s] of [xsgetn] is the list [buf]; the bytes that
    [read(fd, &s[1], n-1)] stores go to index 1 onwards. *)
Definition xsgetn (buf : list Z) (n : Z) (s : Implementation) (w : W)
  : Z * list Z * Implementation * W :=
  if (-1 =? mFileDescriptor s) || (n <=? 0) then (0, buf, s, w)
  else
    let '(retval, buf1, s1, w1) :=
      if mPutbackAvailable s then
        let buf1 := <[0%nat := mPutbackChar s]> buf in
        let retval := 0 + 1 in
        let s1 := set_mPutbackAvailable false s in
        if n >? 1 then
          let '(r, w1) := sys_read (mFileDescriptor s) (n - 1) w in
          let buf2 := list_inserts 1 (data_of r) buf1 in
          let retval := retval_of r in
          if negb (retval =? -1) then (retval + 1, buf2, s1, w1)
          else (retval, buf2, s1, w1)
        else (retval, buf1, s1, w)
      else
        let '(r, w1) := sys_read (mFileDescriptor s) n w in
        (retval_of r, list_inserts 0 (data_of r) buf, s, w1) in
    if (-1 =? retval) || (0 =? retval) then (0, buf1, s1, w1)
    else (retval, buf1, s1, w1).

(** [showmanyc]: [read] stores straight into [mPutbackChar]. *)
Definition showmanyc (s : Implementation) (w : W) : Z * Implementation * W :=
  if -1 =? mFileDescriptor s then (-1, s, w)
  else if mPutbackAvailable s then (1, s, w)
  else
    let flags := fcntl_getfl (mFileDescriptor s) w in
    let '(r1, w1) :=
      fcntl_setfl (mFileDescriptor s) (Z.lor flags Sys.O_NONBLOCK) w in
    if -1 =? r1 then (-1, s, w1)
    else
      let '(r, w2) := sys_read (mFileDescriptor s) 1 w1 in
      let s1 :=
        match data_of r with
        | [] => s
        | ch :: _ => set_mPutbackChar ch s
        end in
      let retval := retval_of r in
      let '(retval, s2) :=
        if retval =? 1 then (retval, set_mPutbackAvailable true s1)
        else (0, s1) in
      let '(r3, w3) := fcntl_setfl (mFileDescriptor s) flags w2 in
      if -1 =? r3 then (-1, s2, w3)
      else (retval, s2, w3).

(** [underflow]: [next_ch] is the byte [read] stored, when it stored
    one. *)
Definition underflow (s : Implementation) (w : W) : Z * Implementation * W :=
  if -1 =? mFileDescriptor s then (traits_type.eof, s, w)
  else if mPutbackAvailable s then
    (traits_type.to_int_type (mPutbackChar s), s, w)
  else
    let '(r, w1) := sys_read (mFileDescriptor s) 1 w in
    let next_ch := nth 0 (data_of r) 0 in
    let retval := retval_of r in
    if retval =? 1 then
      let s1 := set_mPutbackChar next_ch s in
      let s2 := set_mPutbackAvailable true s1 in
      (traits_type.to_int_type next_ch, s2, w1)
    else if (-1 =? retval) || (0 =? retval) then
      (traits_type.eof, s, w1)
    else
      (traits_type.to_int_type next_ch, s, w1).

(** ** Opening and closing *)

Definition SetParametersToDefault (s : Implementation) (w : W) : Z * W :=
  if -1 =? mFileDescriptor s then (-1, w)
  else
    match tcgetattr (mFileDescriptor s) w with
    | None => (-1, w)
    | Some tio =>
        let tio := set_c_iflag Sys.IGNBRK tio in
        let tio := set_c_oflag 0 tio in
        let tio :=
          set_c_cflag
            (Z.lor (Z.lor (Z.lor Sys.B19200 Sys.CS8) Sys.CLOCAL) Sys.CREAD)
            tio in
        let tio := set_c_lflag 0 tio in
        let tio := set_c_line 0 tio in
        let tio := set_c_cc (replicate Sys.NCCS 0) tio in
        let tio := set_c_cc (<[Sys.VTIME := 0]> (c_cc tio)) tio in
        let tio := set_c_cc (<[Sys.VMIN := 1]> (c_cc tio)) tio in
        let '(r, w1) := tcsetattr (mFileDescriptor s) Sys.TCSANOW tio w in
        if -1 =? r then (-1, w1)
        else
          let '(baud, w2) := SetBaudRate (DEFAULT_BAUD hdr) s w1 in
          if decide (BAUD_INVALID = baud) then (-1, w2)
          else
            let '(size, w3) := SetCharSize (DEFAULT_CHAR_SIZE hdr) s w2 in
            if decide (CHAR_SIZE_INVALID = size) then (-1, w3)
            else
              let '(stop, w4) :=
                SetNumOfStopBits (DEFAULT_NO_OF_STOP_BITS hdr) s w3 in
              if -1 =? stop then (-1, w4)
              else
                let '(parity, w5) := SetParity (DEFAULT_PARITY hdr) s w4 in
                if -1 =? ParityEnum_value hdr parity then (-1, w5)
                else
                  let '(flow, w6) :=
                    SetFlowControl (DEFAULT_FLOW_CONTROL hdr) s w5 in
                  if -1 =? FlowControlEnum_value hdr flow then (-1, w6)
                  else
                    let '(vmin, w7) := SetVMin (DEFAULT_VMIN hdr) s w6 in
                    if -1 =? vmin then (-1, w7)
                    else
                      let '(vtime, w8) := SetVTime (DEFAULT_VTIME hdr) s w7 in
                      if -1 =? vtime then (-1, w8)
                      else (0, w8)
    end.

Definition InitializeSerialPort (s : Implementation) (w : W) : Z * W :=
  if -1 =? mFileDescriptor s then (-1, w)
  else
    let flags := fcntl_getfl (mFileDescriptor s) w in
    let '(r1, w1) :=
      fcntl_setfl (mFileDescriptor s) (Z.lor flags Sys.O_NONBLOCK) w in
    if -1 =? r1 then (-1, w1)
    else
      let '(r2, w2) := tcflush (mFileDescriptor s) Sys.TCIOFLUSH w1 in
      if -1 =? r2 then (-1, w2)
      else
        let '(r3, w3) := SetParametersToDefault s w2 in
        if -1 =? r3 then (-1, w3)
        else
          let flags := fcntl_getfl (mFileDescriptor s) w3 in
          let '(r4, w4) :=
            fcntl_setfl (mFileDescriptor s)
                        (Z.land flags (Z.lnot Sys.O_NONBLOCK)) w3 in
          if -1 =? r4 then (-1, w4)
          else (0, w4).

(** The open flags [SerialStreamBuf::open] builds from the stream's
    [openmode]; [None] is the arm that returns the null pointer. *)
Definition open_flags (mode : Z) : option Z :=
  if mode =? Z.lor Sys.ios_in Sys.ios_out then Some Sys.O_RDWR
  else if mode =? Sys.ios_in then Some Sys.O_RDONLY
  else if mode =? Sys.ios_out then Some Sys.O_WRONLY
  else None.

(** [SerialStreamBuf::open]: the result is [true] for [this] and [false]
    for the null pointer. *)
Definition open (filename : string) (mode : Z) (s : Implementation) (w : W)
  : bool * Implementation * W :=
  if negb (Bool.eqb (is_open s) false) then (false, s, w)
  else
    match open_flags mode with
    | None => (false, s, w)
    | Some flags =>
        let flags := Z.lor flags Sys.O_NOCTTY in
        let '(fd, w1) := sys_open filename flags w in
        let s1 := set_mFileDescriptor fd s in
        if -1 =? mFileDescriptor s1 then (false, s1, w1)
        else
          let '(r, w2) := InitializeSerialPort s1 w1 in
          if -1 =? r then (false, s1, w2)
          else (true, s1, w2)
    end.

(** [SerialStreamBuf::close]: the result is [true] for [this] and [false]
    for the null pointer. *)
Definition close (s : Implementation) (w : W) : bool * Implementation * W :=
  if Bool.eqb (is_open s) false then (false, s, w)
  else
    let '(r, w1) := sys_close (mFileDescriptor s) w in
    if -1 =? r then (false, s, w1)
    else (true, set_mFileDescriptor (-1) s, w1).

End Stream.

(** ** A simulated terminal

    One concrete world, used to run the embedding: a line discipline that
    holds an attribute block, file status flags and an input queue, and a
    plan of faults.  Every call that can change the world takes the next
    entry of the plan and fails with [-1], changing nothing else, when the
    entry is [true].  [sim_keep_cc] describes a driver that accepts an
    attribute block but does not take over its control characters
    ([tcsetattr] succeeds as soon as one requested change is carried
    out). *)
Record Sim := mk_Sim {
  sim_attr    : termios;
  sim_fl      : Z;
  sim_rx      : list Z;
  sim_faults  : list bool;
  sim_keep_cc : bool
}.

Definition sim_next_fault (w : Sim) : bool * Sim :=
  match sim_faults w with
  | [] => (false, w)
  | f :: plan =>
      (f, mk_Sim (sim_attr w) (sim_fl w) (sim_rx w) plan (sim_keep_cc w))
  end.

Definition sim_open (filename : string) (flags : Z) (w : Sim) : Z * Sim :=
  let '(f, w1) := sim_next_fault w in
  if f then (-1, w1) else (3, w1).

Definition sim_close (fd : Z) (w : Sim) : Z * Sim :=
  let '(f, w1) := sim_next_fault w in
  if f then (-1, w1) else (0, w1).

Definition sim_read (fd n : Z) (w : Sim) : read_result * Sim :=
  let '(f, w1) := sim_next_fault w in
  if f || (n <? 0) then (RError, w1)
  else
    let k := Z.to_nat n in
    (RData (map (fun b => b mod 256) (take k (sim_rx w1))),
     mk_Sim (sim_attr w1) (sim_fl w1) (drop k (sim_rx w1)) (sim_faults w1)
            (sim_keep_cc w1)).

Definition sim_getfl (fd : Z) (w : Sim) : Z := sim_fl w.

Definition sim_setfl (fd fl : Z) (w : Sim) : Z * Sim :=
  let '(f, w1) := sim_next_fault w in
  if f then (-1, w1)
  else (0, mk_Sim (sim_attr w1) fl (sim_rx w1) (sim_faults w1)
                  (sim_keep_cc w1)).

Definition sim_tcflush (fd queue : Z) (w : Sim) : Z * Sim :=
  let '(f, w1) := sim_next_fault w in
  if f then (-1, w1)
  else (0, mk_Sim (sim_attr w1) (sim_fl w1) [] (sim_faults w1)
                  (sim_keep_cc w1)).

Definition sim_tcgetattr (fd : Z) (w : Sim) : option termios :=
  Some (sim_attr w).

Definition sim_tcsetattr (fd actions : Z) (t : termios) (w : Sim) : Z * Sim :=
  let '(f, w1) := sim_next_fault w in
  if f then (-1, w1)
  else
    let accepted :=
      if sim_keep_cc w1 then set_c_cc (c_cc (sim_attr w1)) t else t in
    (0, mk_Sim accepted (sim_fl w1) (sim_rx w1) (sim_faults w1)
               (sim_keep_cc w1)).

(** The speed lives in the [CBAUD] bits of [c_cflag]. *)
Definition sim_cfsetspeed (t : termios) (speed : Z) : termios :=
  set_c_cflag (Z.lor (Z.land (c_cflag t) (Z.lnot Sys.CBAUD)) speed) t.

Definition sim_cfgetspeed (t : termios) : Z := Z.land (c_cflag t) Sys.CBAUD.

Lemma sim_read_bound fd n w l w' :
  sim_read fd n w = (RData l, w') -> Z.of_nat (length l) <= n.
Proof.
  unfold sim_read. destruct (sim_next_fault w) as [f w1].
  destruct f; simpl; [discriminate|].
  destruct (Z.ltb_spec n 0); [discriminate|].
  intros E. injection E as <- _.
  rewrite length_map, length_take. lia.
Qed.

Lemma sim_read_bytes fd n w l w' :
  sim_read fd n w = (RData l, w') -> Forall (fun b => 0 <= b < 256) l.
Proof.
  unfold sim_read. destruct (sim_next_fault w) as [f w1].
  destruct (f || (n <? 0)); [discriminate|].
  intros E. injection E as <- _.
  apply Forall_forall. intros b Hb.
  apply list_elem_of_fmap in Hb as (a & -> & _).
  apply Z.mod_pos_bound. lia.
Qed.

#[global] Instance Sim_Posix : Posix Sim := {|
  sys_open := sim_open;
  sys_close := sim_close;
  sys_read := sim_read;
  fcntl_getfl := sim_getfl;
  fcntl_setfl := sim_setfl;
  tcflush := sim_tcflush;
  tcgetattr := sim_tcgetattr;
  tcsetattr := sim_tcsetattr;
  cfsetispeed := sim_cfsetspeed;
  cfsetospeed := sim_cfsetspeed;
  cfgetispeed := sim_cfgetspeed;
  cfgetospeed := sim_cfgetspeed;
  sys_read_bound := sim_read_bound;
  sys_read_bytes := sim_read_bytes
|}.

(** A header in the shape of the library's: enumerators numbered in
    declaration order, the usual defaults. *)
Definition sim_header : Header := {|
  DEFAULT_BAUD := BAUD_19200;
  DEFAULT_CHAR_SIZE := CHAR_SIZE_8;
  DEFAULT_NO_OF_STOP_BITS := 1;
  DEFAULT_PARITY := PARITY_NONE;
  DEFAULT_FLOW_CONTROL := FLOW_CONTROL_NONE;
  DEFAULT_VMIN := 1;
  DEFAULT_VTIME := 0;
  ParityEnum_value := fun p =>
    match p with
    | PARITY_EVEN => 0 | PARITY_ODD => 1 | PARITY_NONE => 2
    | PARITY_INVALID => 3
    end;
  FlowControlEnum_value := fun f =>
    match f with
    | FLOW_CONTROL_HARD => 0 | FLOW_CONTROL_SOFT => 1
    | FLOW_CONTROL_NONE => 2 | FLOW_CONTROL_INVALID => 3
    end
|}.

(** A freshly plugged terminal: 9600 8N1, canonical defaults zeroed, no
    input waiting, no fault planned. *)
Definition sim_tty : Sim := {|
  sim_attr := mk_termios 0 0 (Z.lor Sys.B9600 Sys.CS8) 0 0
                         (replicate Sys.NCCS 0);
  sim_fl := Sys.O_RDWR;
  sim_rx := [];
  sim_faults := [];
  sim_keep_cc := false
|}.

(** The same terminal once [SetParametersToDefault] has run with
    [sim_header]: IGNBRK, 19200 8N1 with CLOCAL and CREAD, VMIN 1,
    VTIME 0. *)
Definition sim_tty_configured : Sim := {|
  sim_attr := mk_termios Sys.IGNBRK 0
                (Z.lor (Z.lor (Z.lor Sys.B19200 Sys.CS8) Sys.CLOCAL) Sys.CREAD)
                0 0 (<[Sys.VMIN := 1]> (replicate Sys.NCCS 0));
  sim_fl := Sys.O_RDWR;
  sim_rx := [];
  sim_faults := [];
  sim_keep_cc := false
|}.

Definition sim_with_rx (rx : list Z) (w : Sim) : Sim :=
  mk_Sim (sim_attr w) (sim_fl w) rx (sim_faults w) (sim_keep_cc w).

Definition sim_with_faults (plan : list bool) (w : Sim) : Sim :=
  mk_Sim (sim_attr w) (sim_fl w) (sim_rx w) plan (sim_keep_cc w).

Definition sim_with_keep_cc (k : bool) (w : Sim) : Sim :=
  mk_Sim (sim_attr w) (sim_fl w) (sim_rx w) (sim_faults w) k.

Definition sim_with_attr (t : termios) (w : Sim) : Sim :=
  mk_Sim t (sim_fl w) (sim_rx w) (sim_faults w) (sim_keep_cc w).


(** An open stream buffer on descriptor 3 with the putback cell given. *)
Definition sim_port (ch : Z) (pending : bool) : Implementation :=
  mk_Implementation ch pending 3.

(** [ios_base::in | ios_base::out] *)
Definition sim_mode_rw : Z := Z.lor Sys.ios_in Sys.ios_out.

(** A terminal under software flow control. *)
Definition sim_tty_soft : Sim :=
  sim_with_attr
    (mk_termios (Z.lor Sys.IXON Sys.IXOFF) 0 (Z.lor Sys.B9600 Sys.CS8) 0 0
                (<[Sys.VSTOP := CTRL_S]>
                   (<[Sys.VSTART := CTRL_Q]> (replicate Sys.NCCS 0))))
    sim_tty.

(** The terminal behind a driver that keeps its control characters. *)
Definition sim_tty_keep_cc : Sim := sim_with_keep_cc true sim_tty.

(** The terminal with the bytes [rx] waiting and the descriptor switched
    to non-blocking. *)
Definition sim_tty_nonblocking (rx : list Z) : Sim :=
  mk_Sim (sim_attr sim_tty) (Z.lor Sys.O_RDWR Sys.O_NONBLOCK) rx [] false.

(** ** The probe of [showmanyc] *)

(** The probe of [showmanyc] obtains the byte [b]: the descriptor is
    switched to non-blocking and the one-byte [read] that follows returns
    exactly [b]. *)
Definition showmanyc_probe_obtains {W : Type} `{Posix W}
    (s : Implementation) (w : W) (b : Z) : Prop :=
  exists r1 w1 w2,
    fcntl_setfl (mFileDescriptor s)
                (Z.lor (fcntl_getfl (mFileDescriptor s) w) Sys.O_NONBLOCK) w
    = (r1, w1)
    /\ r1 <> -1
    /\ sys_read (mFileDescriptor s) 1 w1 = (RData [b], w2).

(** ** The rest of the stream buffer

    [write(2)] is a second interface, next to [Posix]: the call gets the
    bytes of the caller's buffer that it was asked to write and returns
    [-1] or the number of bytes it took. *)
Class PosixWrite (W : Type) := {
  sys_write : Z -> list Z -> W -> Z * W;
  sys_write_bound : forall fd data w r w',
    sys_write fd data w = (r, w') -> -1 <= r <= Z.of_nat (length data)
}.

Section Output.

Context {W : Type} `{PosixWrite W}.

(** [xsputn]: [buf] is the caller's array [s]; [write] is handed its first
    [n] bytes. *)
Definition xsputn (buf : list Z) (n : Z) (s : Implementation) (w : W)
  : Z * W :=
  if (-1 =? mFileDescriptor s) || (n <=? 0) then (0, w)
  else
    let '(retval, w1) :=
      sys_write (mFileDescriptor s) (take (Z.to_nat n) buf) w in
    if (-1 =? retval) || (0 =? retval) then (0, w1)
    else (retval, w1).

Definition overflow (c : Z) (s : Implementation) (w : W) : Z * W :=
  if -1 =? mFileDescriptor s then (traits_type.eof, w)
  else if traits_type.eq_int_type c traits_type.eof then (traits_type.eof, w)
  else
    let out_ch := traits_type.to_char_type c in
    let '(retval, w1) := sys_write (mFileDescriptor s) [out_ch] w in
    if (-1 =? retval) || (0 =? retval) then (traits_type.eof, w1)
    else (traits_type.not_eof c, w1).

End Output.

Section Consume.

Context {W : Type} `{Posix W}.

(** [SerialStreamBuf::uflow] *)
Definition uflow (s : Implementation) (w : W) : Z * Implementation * W :=
  let '(next_ch, s1, w1) := underflow s w in
  (next_ch, set_mPutbackAvailable false s1, w1).

(** The device behind [fd] takes an attribute block as it is given: after
    a [tcsetattr] from the world [w] that did not fail, [tcgetattr] reads
    back the block that was written. *)
Definition device_keeps (fd : Z) (w : W) : Prop :=
  forall t r w',
    tcsetattr fd Sys.TCSANOW t w = (r, w') -> r <> -1 ->
    tcgetattr fd w' = Some t.

(** The speed functions of libc read back the speed code [speed] that
    [cfsetispeed] and [cfsetospeed] stored. *)
Definition speed_kept (speed : Z) : Prop :=
  forall t,
    cfgetispeed (cfsetospeed (cfsetispeed t speed) speed) = speed
    /\ cfgetospeed (cfsetospeed (cfsetispeed t speed) speed) = speed.

End Consume.

(** The simulated terminal takes every byte written to it, unless a fault
    is planned. *)
Definition sim_write (fd : Z) (data : list Z) (w : Sim) : Z * Sim :=
  let '(f, w1) := sim_next_fault w in
  if f then (-1, w1) else (Z.of_nat (length data), w1).

Lemma sim_write_bound fd data w r w' :
  sim_write fd data w = (r, w') -> -1 <= r <= Z.of_nat (length data).
Proof.
  unfold sim_write. destruct (sim_next_fault w) as [f w1].
  destruct f; intros [= <- _]; lia.
Qed.

#[global] Instance Sim_PosixWrite : PosixWrite Sim := {|
  sys_write := sim_write;
  sys_write_bound := sim_write_bound
|}.

(** * Properties *)

Lemma is_open_fd (s : Implementation) :
  is_open s = true -> (-1 =? mFileDescriptor s) = false.
Proof. unfold is_open. now destruct (-1 =? mFileDescriptor s). Qed.

Lemma not_open_fd (s : Implementation) :
  is_open s = false -> (-1 =? mFileDescriptor s) = true.
Proof. unfold is_open. now destruct (-1 =? mFileDescriptor s). Qed.

Lemma is_open_set_fd (fd : Z) (s : Implementation) :
  fd <> -1 -> is_open (set_mFileDescriptor fd s) = true.
Proof.
  intros Hfd. unfold is_open, set_mFileDescriptor. cbn [mFileDescriptor].
  destruct (Z.eqb_spec (-1) fd); [congruence | reflexivity].
Qed.

Lemma byte_to_int_type (b : Z) :
  0 <= b < 256 -> traits_type.to_int_type b = b.
Proof. intros Hb. unfold traits_type.to_int_type. now apply Z.mod_small. Qed.

Lemma byte_to_char_type (b : Z) :
  0 <= b < 256 -> traits_type.to_char_type b = b.
Proof. intros Hb. unfold traits_type.to_char_type. now apply Z.mod_small. Qed.

Lemma byte_not_eof (b : Z) :
  0 <= b < 256 ->
  traits_type.eq_int_type b traits_type.eof = false
  /\ traits_type.not_eof b = b.
Proof.
  intros Hb. unfold traits_type.not_eof, traits_type.eq_int_type, traits_type.eof.
  destruct (Z.eqb_spec b (-1)); [lia | auto].
Qed.

Section Putback.

Context {W : Type} `{Posix W}.

(** With a byte pending, [underflow] hands it out without a system call
    and leaves it pending. *)
Lemma underflow_pending (s : Implementation) (w : W) :
  is_open s = true -> mPutbackAvailable s = true ->
  underflow s w = (traits_type.to_int_type (mPutbackChar s), s, w).
Proof.
  intros Ho Ha. unfold underflow. now rewrite (is_open_fd _ Ho), Ha.
Qed.

(** C1, as amended: on an open port, for every byte [b] (none is the
    end-of-file marker), [pbackfail b] with no putback byte pending
    returns [b] and stores it, the next [underflow] returns [b], and a
    second [pbackfail] fails and leaves the stored byte as it is; on any
    port, [pbackfail] with a byte pending fails and changes nothing, and
    so does [pbackfail] of the end-of-file marker; on a port that is not
    open, [pbackfail] of any value fails and changes nothing. *)
Theorem pbackfail_underflow_roundtrip (s : Implementation) :
  (forall (w : W) (b : Z),
     is_open s = true -> mPutbackAvailable s = false -> 0 <= b < 256 ->
     let s' := set_mPutbackAvailable true (set_mPutbackChar b s) in
     pbackfail b s = (b, s')
     /\ underflow s' w = (b, s', w)
     /\ forall c, pbackfail c s' = (traits_type.eof, s'))
  /\ (forall c, mPutbackAvailable s = true ->
        pbackfail c s = (traits_type.eof, s))
  /\ pbackfail traits_type.eof s = (traits_type.eof, s)
  /\ (forall c, is_open s = false -> pbackfail c s = (traits_type.eof, s)).
Proof.
  split; [| split; [| split]].
  - intros w b Ho Ha Hb s'.
    assert (Ho' : is_open s' = true) by exact Ho.
    destruct (byte_not_eof b Hb) as [Hne Hnot].
    split; [| split].
    + unfold pbackfail.
      rewrite (is_open_fd _ Ho), Ha, Hne, Hnot, (byte_to_char_type b Hb).
      reflexivity.
    + rewrite (underflow_pending s' w Ho' eq_refl). simpl.
      now rewrite (byte_to_int_type b Hb).
    + intros c. unfold pbackfail. now rewrite (is_open_fd _ Ho').
  - intros c Ha. unfold pbackfail. rewrite Ha.
    now destruct (-1 =? mFileDescriptor s).
  - unfold pbackfail.
    destruct (-1 =? mFileDescriptor s); [reflexivity|].
    now destruct (mPutbackAvailable s).
  - intros c Hc. unfold pbackfail. now rewrite (not_open_fd _ Hc).
Qed.

End Putback.

(** C1, as stated, fails on a port that is not open: the stream buffer
    as constructed has no putback byte pending, yet putting back the
    byte 65 fails with the end-of-file marker and stores nothing. *)
Lemma pbackfail_closed_port_counterexample :
  mPutbackAvailable Implementation_new = false
  /\ 0 <= 65 < 256
  /\ pbackfail 65 Implementation_new = (traits_type.eof, Implementation_new)
  /\ traits_type.eof <> 65.
Proof. repeat split; try lia; discriminate. Qed.

Lemma pbackfail_underflow_roundtrip_witness :
  (pbackfail 65 (sim_port 0 false) = (65, sim_port 65 true)
   /\ underflow (sim_port 65 true) sim_tty = (65, sim_port 65 true, sim_tty)
   /\ forall c, pbackfail c (sim_port 65 true)
                = (traits_type.eof, sim_port 65 true))
  /\ pbackfail 66 (sim_port 65 true) = (traits_type.eof, sim_port 65 true)
  /\ pbackfail 66 Implementation_new = (traits_type.eof, Implementation_new).
Proof.
  split; [| split].
  - apply (proj1 (pbackfail_underflow_roundtrip (sim_port 0 false)) sim_tty 65);
      [reflexivity | reflexivity | lia].
  - apply (proj1 (proj2 (pbackfail_underflow_roundtrip (sim_port 65 true))) 66).
    reflexivity.
  - apply (proj2 (proj2 (proj2 (pbackfail_underflow_roundtrip (W := Sim)
                                  Implementation_new))) 66).
    reflexivity.
Defined.

Section Lifecycle.

Context {W : Type} `{Posix W} (hdr : Header).

(** A call of [open] that returns [this] leaves a valid descriptor. *)
Lemma open_success_is_open filename mode (s s1 : Implementation) (w w1 : W) :
  open hdr filename mode s w = (true, s1, w1) -> is_open s1 = true.
Proof.
  unfold open.
  destruct (negb (Bool.eqb (is_open s) false)); [discriminate|].
  destruct (open_flags mode) as [flags|]; [|discriminate].
  destruct (sys_open filename (Z.lor flags Sys.O_NOCTTY) w) as [fd w0].
  destruct (-1 =? mFileDescriptor (set_mFileDescriptor fd s)) eqn:Efd;
    [discriminate|].
  destruct (InitializeSerialPort hdr (set_mFileDescriptor fd s) w0) as [r w2].
  destruct (-1 =? r); [discriminate|].
  intros E. injection E as <- _.
  unfold is_open. now rewrite Efd.
Qed.

(** [close] on a port that is not open returns the null pointer and
    touches neither the object nor the world. *)
Lemma close_not_open (s : Implementation) (w : W) :
  is_open s = false -> close s w = (false, s, w).
Proof. intros Hc. unfold close. now rewrite Hc. Qed.

(** C7: [open] on a stream buffer that is already open returns the null
    pointer and changes neither the object (descriptor, putback byte,
    putback flag) nor the world: no system call is made. *)
Theorem open_already_open filename mode (s : Implementation) (w : W) :
  is_open s = true ->
  open hdr filename mode s w = (false, s, w)
  /\ mFileDescriptor (snd (fst (open hdr filename mode s w)))
     = mFileDescriptor s
  /\ mPutbackChar (snd (fst (open hdr filename mode s w))) = mPutbackChar s
  /\ mPutbackAvailable (snd (fst (open hdr filename mode s w)))
     = mPutbackAvailable s.
Proof.
  intros Ho.
  assert (E : open hdr filename mode s w = (false, s, w)).
  { unfold open. now rewrite Ho. }
  rewrite E. auto.
Qed.

(** C6, as amended: [close] on a port that is not open fails and changes
    nothing; after an [open] that succeeded the port is open; a [close]
    on an open port either succeeds, after which the port is not open and
    every further [close] fails and changes nothing, or fails because the
    system's [close] failed, and then the object is unchanged and the
    port is still open. *)
Theorem close_is_open_coupling (s : Implementation) (w : W) :
  (is_open s = false -> close s w = (false, s, w))
  /\ (forall filename mode s1 w1,
        open hdr filename mode s w = (true, s1, w1) -> is_open s1 = true)
  /\ (is_open s = true ->
      forall r s' w', close s w = (r, s', w') ->
        (r = true ->
           (exists rc, sys_close (mFileDescriptor s) w = (rc, w') /\ rc <> -1)
           /\ is_open s' = false
           /\ forall w2 : W, close s' w2 = (false, s', w2))
        /\ (r = false ->
              sys_close (mFileDescriptor s) w = (-1, w')
              /\ s' = s /\ is_open s' = true)).
Proof.
  split; [apply close_not_open | split].
  - intros filename mode s1 w1. apply open_success_is_open.
  - intros Ho r s' w'. unfold close. rewrite Ho. cbn [Bool.eqb].
    destruct (sys_close (mFileDescriptor s) w) as [rc w1].
    destruct (Z.eqb_spec (-1) rc) as [Hrc|Hrc];
      intros E; injection E as <- <- <-.
    + split; [discriminate|]. intros _. subst rc. auto.
    + split; [|discriminate]. intros _.
      split; [exists rc; split; [reflexivity | congruence] |].
      split; [reflexivity|].
      intros w2. now apply close_not_open.
Qed.

(** C8, as amended: when [open] obtains a descriptor and
    [InitializeSerialPort] then fails, [open] returns the null pointer,
    the descriptor obtained stays in the object, and [is_open] is true
    (it is the test that the descriptor is not -1: there is no separate
    flag); a further [open] is then refused as already open, without a
    system call. *)
Theorem open_partial_failure filename mode flags (s : Implementation)
    (w w1 w2 : W) (fd : Z) :
  is_open s = false ->
  open_flags mode = Some flags ->
  sys_open filename (Z.lor flags Sys.O_NOCTTY) w = (fd, w1) ->
  fd <> -1 ->
  InitializeSerialPort hdr (set_mFileDescriptor fd s) w1 = (-1, w2) ->
  let s' := set_mFileDescriptor fd s in
  open hdr filename mode s w = (false, s', w2)
  /\ mFileDescriptor s' = fd
  /\ is_open s' = true
  /\ forall filename' mode' (w3 : W),
       open hdr filename' mode' s' w3 = (false, s', w3).
Proof.
  intros Hc Hm Hopen Hfd Hinit.
  set (s' := set_mFileDescriptor fd s) in *.
  assert (Ho' : is_open s' = true) by now apply is_open_set_fd.
  split; [| split; [reflexivity | split; [exact Ho'|]]].
  - unfold open. rewrite Hc, Hm, Hopen. cbn [Bool.eqb negb].
    fold s'. rewrite (is_open_fd _ Ho'), Hinit. reflexivity.
  - intros filename' mode' w3. unfold open. now rewrite Ho'.
Qed.

End Lifecycle.

Lemma open_already_open_witness :
  open sim_header "/dev/ttyS1" sim_mode_rw (sim_port 65 true) sim_tty
  = (false, sim_port 65 true, sim_tty)
  /\ mFileDescriptor
       (snd (fst (open sim_header "/dev/ttyS1" sim_mode_rw
                       (sim_port 65 true) sim_tty))) = 3
  /\ mPutbackChar
       (snd (fst (open sim_header "/dev/ttyS1" sim_mode_rw
                       (sim_port 65 true) sim_tty))) = 65
  /\ mPutbackAvailable
       (snd (fst (open sim_header "/dev/ttyS1" sim_mode_rw
                       (sim_port 65 true) sim_tty))) = true.
Proof.
  apply (open_already_open sim_header "/dev/ttyS1" sim_mode_rw
                           (sim_port 65 true) sim_tty).
  reflexivity.
Defined.

(** C6, as stated, fails when the system's [close] fails: the port was
    opened successfully, the attempted [close] returns the null pointer,
    and the port is still open afterwards. *)
Lemma close_failure_counterexample :
  open sim_header "/dev/ttyS0" sim_mode_rw Implementation_new sim_tty
  = (true, sim_port 0 false, sim_tty_configured)
  /\ close (sim_port 0 false) (sim_with_faults [true] sim_tty_configured)
     = (false, sim_port 0 false, sim_tty_configured)
  /\ is_open (sim_port 0 false) = true.
Proof. vm_compute. auto. Qed.

Lemma close_is_open_coupling_witness :
  close Implementation_new sim_tty = (false, Implementation_new, sim_tty)
  /\ is_open (sim_port 0 false) = true
  /\ (is_open (set_mFileDescriptor (-1) (sim_port 0 false)) = false
      /\ forall w2 : Sim,
           close (set_mFileDescriptor (-1) (sim_port 0 false)) w2
           = (false, set_mFileDescriptor (-1) (sim_port 0 false), w2)).
Proof.
  split; [| split].
  - apply (proj1 (close_is_open_coupling sim_header Implementation_new sim_tty)).
    reflexivity.
  - apply (proj1 (proj2 (close_is_open_coupling sim_header
                           Implementation_new sim_tty))
             "/dev/ttyS0"%string sim_mode_rw (sim_port 0 false)
             sim_tty_configured).
    vm_compute. reflexivity.
  - pose proof (proj2 (proj2 (close_is_open_coupling sim_header
                                (sim_port 0 false) sim_tty_configured))
                  eq_refl true
                  (set_mFileDescriptor (-1) (sim_port 0 false))
                  sim_tty_configured) as Hclose.
    destruct Hclose as [Hclose _]; [vm_compute; reflexivity|].
    destruct (Hclose eq_refl) as (_ & Hn & Hagain).
    split; assumption.
Defined.

(** C8, as stated, fails: the descriptor 3 is obtained, the first
    [fcntl] of [InitializeSerialPort] fails, [open] returns the null
    pointer, and [is_open] is true afterwards. *)
Lemma open_partial_failure_counterexample :
  sys_open "/dev/ttyS0" (Z.lor Sys.O_RDWR Sys.O_NOCTTY)
           (sim_with_faults [false; true] sim_tty)
  = (3, sim_with_faults [true] sim_tty)
  /\ InitializeSerialPort sim_header (sim_port 0 false)
                          (sim_with_faults [true] sim_tty)
     = (-1, sim_tty)
  /\ open sim_header "/dev/ttyS0" sim_mode_rw Implementation_new
          (sim_with_faults [false; true] sim_tty)
     = (false, sim_port 0 false, sim_tty)
  /\ is_open (sim_port 0 false) = true.
Proof. vm_compute. auto. Qed.

Lemma open_partial_failure_witness :
  open sim_header "/dev/ttyS0" sim_mode_rw Implementation_new
       (sim_with_faults [false; true] sim_tty)
  = (false, sim_port 0 false, sim_tty)
  /\ mFileDescriptor (sim_port 0 false) = 3
  /\ is_open (sim_port 0 false) = true
  /\ forall filename' mode' (w3 : Sim),
       open sim_header filename' mode' (sim_port 0 false) w3
       = (false, sim_port 0 false, w3).
Proof.
  apply (open_partial_failure sim_header "/dev/ttyS0" sim_mode_rw Sys.O_RDWR
           Implementation_new (sim_with_faults [false; true] sim_tty)
           (sim_with_faults [true] sim_tty) sim_tty 3);
    [reflexivity | reflexivity | reflexivity | lia | vm_compute; reflexivity].
Defined.

(** ** Bit masks *)

Lemma land_clear_then_set (x m b : Z) :
  Z.land b m = b -> Z.land (Z.lor (Z.land x (Z.lnot m)) b) m = b.
Proof.
  intros Hb.
  rewrite Z.land_lor_distr_l, <- Z.land_assoc.
  rewrite (Z.land_comm (Z.lnot m) m), Z.land_lnot_diag, Z.land_0_r, Hb.
  reflexivity.
Qed.

Lemma land_clear_then_set_others (x m b : Z) :
  Z.land b m = b ->
  Z.land (Z.lor (Z.land x (Z.lnot m)) b) (Z.lnot m) = Z.land x (Z.lnot m).
Proof.
  intros Hb.
  rewrite Z.land_lor_distr_l, <- Z.land_assoc, Z.land_diag.
  rewrite <- Hb, <- Z.land_assoc, Z.land_lnot_diag, Z.land_0_r.
  apply Z.lor_0_r.
Qed.

Lemma flag_set_after_clear (x m : Z) :
  flag_set (Z.land x (Z.lnot m)) m = false.
Proof.
  unfold flag_set.
  rewrite <- Z.land_assoc, (Z.land_comm (Z.lnot m) m), Z.land_lnot_diag.
  now rewrite Z.land_0_r.
Qed.

Lemma flag_set_after_set (x m : Z) :
  m <> 0 -> flag_set (Z.lor x m) m = true.
Proof.
  intros Hm. unfold flag_set.
  replace (Z.land (Z.lor x m) m) with m.
  - destruct (Z.eqb_spec m 0); [contradiction | reflexivity].
  - apply Z.bits_inj'. intros n Hn.
    rewrite Z.land_spec, Z.lor_spec.
    now destruct (Z.testbit x n), (Z.testbit m n).
Qed.

Lemma land_set_others (x m : Z) :
  Z.land (Z.lor x m) (Z.lnot m) = Z.land x (Z.lnot m).
Proof.
  rewrite Z.land_lor_distr_l, Z.land_lnot_diag. apply Z.lor_0_r.
Qed.

Lemma land_clear_others (x m : Z) :
  Z.land (Z.land x (Z.lnot m)) (Z.lnot m) = Z.land x (Z.lnot m).
Proof. now rewrite <- Z.land_assoc, Z.land_diag. Qed.

Lemma SetCharSize_case_in_CSIZE (char_size : CharSize) (size_bits : Z) :
  SetCharSize_case char_size = Some size_bits ->
  Z.land size_bits Sys.CSIZE = size_bits.
Proof. destruct char_size; intros [= <-]; reflexivity. Qed.

Section Attributes.

Context {W : Type} `{Posix W}.

(** C4: on the attribute block [tcgetattr] returned, [GetFlowControl]
    answers Soft exactly when IXON and IXOFF are both set and VSTART,
    VSTOP hold ^Q (0x11), ^S (0x13); failing that, with neither IXON nor
    IXOFF set it answers Hard when CRTSCTS is set and None when it is
    not; every other combination is answered Invalid. *)
Theorem GetFlowControl_classification (s : Implementation) (w : W)
    (tset : termios) :
  is_open s = true ->
  tcgetattr (mFileDescriptor s) w = Some tset ->
  let xon := flag_set (c_iflag tset) Sys.IXON in
  let xoff := flag_set (c_iflag tset) Sys.IXOFF in
  let rtscts := flag_set (c_cflag tset) Sys.CRTSCTS in
  let soft :=
    xon = true /\ xoff = true
    /\ cc tset Sys.VSTART = 0x11 /\ cc tset Sys.VSTOP = 0x13 in
  (GetFlowControl s w = FLOW_CONTROL_SOFT <-> soft)
  /\ (GetFlowControl s w = FLOW_CONTROL_HARD <->
        ~ soft /\ xon = false /\ xoff = false /\ rtscts = true)
  /\ (GetFlowControl s w = FLOW_CONTROL_NONE <->
        ~ soft /\ xon = false /\ xoff = false /\ rtscts = false)
  /\ (GetFlowControl s w = FLOW_CONTROL_INVALID <->
        ~ soft /\ (xon = true \/ xoff = true)).
Proof.
  intros Ho Hget xon xoff rtscts soft.
  unfold GetFlowControl. rewrite (is_open_fd _ Ho), Hget.
  fold xon xoff rtscts. unfold CTRL_Q, CTRL_S.
  assert (Hsoft : soft <->
            xon && xoff && (17 =? cc tset Sys.VSTART)
                && (19 =? cc tset Sys.VSTOP) = true).
  { unfold soft. rewrite !andb_true_iff, !Z.eqb_eq. intuition congruence. }
  destruct (xon && xoff && (17 =? cc tset Sys.VSTART)
                && (19 =? cc tset Sys.VSTOP)) eqn:Esoft.
  - assert (Hs : soft) by now apply Hsoft.
    clearbody soft xon xoff rtscts.
    repeat split; try discriminate; tauto.
  - assert (Hs : ~ soft) by (rewrite Hsoft; discriminate).
    clear Esoft. clearbody soft xon xoff rtscts.
    destruct xon, xoff, rtscts; cbn [orb negb];
      repeat split; try discriminate; try tauto; intuition discriminate.
Qed.

(** C5: on an open port whose attributes [tcgetattr] returned as [tset],
    [SetCharSize] with one of the four sizes hands to [tcsetattr] a block
    whose size field is exactly the requested size (the CSIZE bits
    cleared, then the size set) with every other control bit as before,
    whose ISTRIP flag is clear exactly when the size is 8 bits and set for
    5, 6 and 7 bits with every other input bit as before, and whose other
    members are untouched; with any other value it returns Invalid and
    leaves the world as it was, nothing written back. *)
Theorem SetCharSize_size_and_istrip (char_size : CharSize)
    (s : Implementation) (w : W) :
  (forall tset size_bits,
     is_open s = true ->
     tcgetattr (mFileDescriptor s) w = Some tset ->
     SetCharSize_case char_size = Some size_bits ->
     exists t',
       SetCharSize char_size s w
       = (let '(r, w1) := tcsetattr (mFileDescriptor s) Sys.TCSANOW t' w in
          if -1 =? r then (CHAR_SIZE_INVALID, w1)
          else (GetCharSize s w1, w1))
       /\ Z.land (c_cflag t') Sys.CSIZE = size_bits
       /\ Z.land (c_cflag t') (Z.lnot Sys.CSIZE)
          = Z.land (c_cflag tset) (Z.lnot Sys.CSIZE)
       /\ flag_set (c_iflag t') Sys.ISTRIP
          = (if decide (char_size = CHAR_SIZE_8) then false else true)
       /\ Z.land (c_iflag t') (Z.lnot Sys.ISTRIP)
          = Z.land (c_iflag tset) (Z.lnot Sys.ISTRIP)
       /\ c_oflag t' = c_oflag tset /\ c_lflag t' = c_lflag tset
       /\ c_line t' = c_line tset /\ c_cc t' = c_cc tset)
  /\ (SetCharSize_case char_size = None ->
      SetCharSize char_size s w = (CHAR_SIZE_INVALID, w)).
Proof.
  split.
  - intros tset size_bits Ho Hget Ecase.
    unfold SetCharSize. rewrite (is_open_fd _ Ho), Ecase, Hget.
    pose proof (SetCharSize_case_in_CSIZE _ _ Ecase) as Hbits.
    eexists. split; [reflexivity|].
    destruct (decide (char_size = CHAR_SIZE_8));
      cbn [c_cflag c_iflag c_oflag c_lflag c_line c_cc
           set_c_cflag set_c_iflag].
    + rewrite land_clear_then_set, land_clear_then_set_others by exact Hbits.
      rewrite flag_set_after_clear, land_clear_others. auto 10.
    + rewrite land_clear_then_set, land_clear_then_set_others by exact Hbits.
      rewrite flag_set_after_set, land_set_others by discriminate. auto 10.
  - intros Ecase. unfold SetCharSize. rewrite Ecase.
    now destruct (-1 =? mFileDescriptor s).
Qed.

End Attributes.

Lemma GetFlowControl_classification_witness :
  GetFlowControl (sim_port 0 false) sim_tty_soft = FLOW_CONTROL_SOFT
  /\ GetFlowControl (sim_port 0 false) sim_tty_configured = FLOW_CONTROL_NONE.
Proof.
  assert (Ho : is_open (sim_port 0 false) = true) by reflexivity.
  split.
  - assert (Hg : tcgetattr (mFileDescriptor (sim_port 0 false)) sim_tty_soft
                 = Some (sim_attr sim_tty_soft)) by reflexivity.
    pose proof (GetFlowControl_classification _ _ _ Ho Hg) as Hc.
    cbv zeta in Hc. destruct Hc as (Hsoft & _).
    apply Hsoft. vm_compute. auto.
  - assert (Hg : tcgetattr (mFileDescriptor (sim_port 0 false))
                           sim_tty_configured
                 = Some (sim_attr sim_tty_configured)) by reflexivity.
    pose proof (GetFlowControl_classification _ _ _ Ho Hg) as Hc.
    cbv zeta in Hc. destruct Hc as (_ & _ & Hnone & _).
    apply Hnone. vm_compute.
    repeat split; try reflexivity. intros (E & _). discriminate E.
Defined.

Lemma SetCharSize_size_and_istrip_witness :
  (exists t',
     SetCharSize CHAR_SIZE_7 (sim_port 0 false) sim_tty
     = (let '(r, w1) := tcsetattr 3 Sys.TCSANOW t' sim_tty in
        if -1 =? r then (CHAR_SIZE_INVALID, w1)
        else (GetCharSize (sim_port 0 false) w1, w1))
     /\ Z.land (c_cflag t') Sys.CSIZE = Sys.CS7
     /\ flag_set (c_iflag t') Sys.ISTRIP = true)
  /\ SetCharSize CHAR_SIZE_INVALID (sim_port 0 false) sim_tty
     = (CHAR_SIZE_INVALID, sim_tty).
Proof.
  assert (Ho : is_open (sim_port 0 false) = true) by reflexivity.
  assert (Hg : tcgetattr (mFileDescriptor (sim_port 0 false)) sim_tty
               = Some (sim_attr sim_tty)) by reflexivity.
  split.
  - destruct (proj1 (SetCharSize_size_and_istrip CHAR_SIZE_7
                       (sim_port 0 false) sim_tty)
                _ Sys.CS7 Ho Hg eq_refl)
      as (t' & Hcall & Hsize & _ & Hstrip & _).
    exists t'. auto.
  - apply (proj2 (SetCharSize_size_and_istrip CHAR_SIZE_INVALID
                    (sim_port 0 false) sim_tty)).
    reflexivity.
Defined.

Section Setters.

Context {W : Type} `{Posix W}.

Ltac setter_paths E :=
  repeat match type of E with
         | context [match ?x with _ => _ end] => destruct x eqn:?
         end;
  injection E as <- <-; try congruence; try reflexivity.

(** C3, as amended: on every path that does not end in the failure
    value, [SetBaudRate], [SetCharSize], [SetNumOfStopBits], [SetParity]
    and [SetFlowControl] return what their getter reads from the device
    after the write-back, so the result is the getter's result on the
    state they leave; [SetVMin] and [SetVTime] do not read back: their
    result is the value that was requested. *)
Theorem setters_result (s : Implementation) (w : W) :
  (forall x r w', SetBaudRate x s w = (r, w') ->
     r <> BAUD_INVALID -> r = GetBaudRate s w')
  /\ (forall x r w', SetCharSize x s w = (r, w') ->
        r <> CHAR_SIZE_INVALID -> r = GetCharSize s w')
  /\ (forall x r w', SetNumOfStopBits x s w = (r, w') ->
        r <> 0 -> r = GetNumOfStopBits s w')
  /\ (forall x r w', SetParity x s w = (r, w') ->
        r <> PARITY_INVALID -> r = GetParity s w')
  /\ (forall x r w', SetFlowControl x s w = (r, w') ->
        r <> FLOW_CONTROL_INVALID -> r = GetFlowControl s w')
  /\ (forall x r w', SetVMin x s w = (r, w') -> r <> -1 -> r = x)
  /\ (forall x r w', SetVTime x s w = (r, w') -> r <> -1 -> r = x).
Proof.
  repeat split; intros x r w' E Hr.
  - unfold SetBaudRate in E. setter_paths E.
  - unfold SetCharSize in E. setter_paths E.
  - unfold SetNumOfStopBits in E. setter_paths E.
  - unfold SetParity in E. setter_paths E.
  - unfold SetFlowControl in E. setter_paths E.
  - unfold SetVMin in E. setter_paths E.
  - unfold SetVTime in E. setter_paths E.
Qed.

End Setters.

(** C3, as stated, fails for [SetVMin]: the driver accepts the attribute
    block without taking over its control characters, [SetVMin 5] answers
    5, the value requested, and [GetVMin] on the state it leaves reads
    0. *)
Lemma SetVMin_not_reread_counterexample :
  SetVMin 5 (sim_port 0 false) sim_tty_keep_cc = (5, sim_tty_keep_cc)
  /\ GetVMin (sim_port 0 false) sim_tty_keep_cc = 0
  /\ is_open (sim_port 0 false) = true.
Proof. vm_compute. auto. Qed.

Lemma setters_result_witness :
  (SetBaudRate BAUD_57600 (sim_port 0 false) sim_tty).1
  = GetBaudRate (sim_port 0 false)
                (SetBaudRate BAUD_57600 (sim_port 0 false) sim_tty).2
  /\ (SetFlowControl FLOW_CONTROL_SOFT (sim_port 0 false) sim_tty).1
     = GetFlowControl (sim_port 0 false)
         (SetFlowControl FLOW_CONTROL_SOFT (sim_port 0 false) sim_tty).2
  /\ (SetVTime 7 (sim_port 0 false) sim_tty).1 = 7.
Proof.
  pose proof (setters_result (sim_port 0 false) sim_tty)
    as (Hbaud & _ & _ & _ & Hflow & _ & Hvtime).
  split; [| split].
  - apply (Hbaud BAUD_57600); [apply surjective_pairing|].
    vm_compute. discriminate.
  - apply (Hflow FLOW_CONTROL_SOFT); [apply surjective_pairing|].
    vm_compute. discriminate.
  - apply (Hvtime 7 _ (SetVTime 7 (sim_port 0 false) sim_tty).2);
      [apply surjective_pairing|].
    vm_compute. discriminate.
Defined.

(** ** Reading *)

Lemma take_inserts_0 (l buf : list Z) :
  (length l <= length buf)%nat -> take (length l) (list_inserts 0 l buf) = l.
Proof.
  intros Hlen.
  rewrite <- (take_drop (length l) buf).
  rewrite list_inserts_0_r by (rewrite length_take; lia).
  now rewrite take_app_length.
Qed.

Lemma take_inserts_after_first (c : Z) (l buf : list Z) :
  (S (length l) <= length buf)%nat ->
  take (S (length l)) (list_inserts 1 l (<[0%nat := c]> buf)) = c :: l.
Proof.
  destruct buf as [|x rest]; cbn [length]; [lia|]. intros Hlen.
  cbn [insert list_insert]. rewrite list_inserts_cons. cbn [take].
  f_equal. apply take_inserts_0. lia.
Qed.

Lemma lookup_first_after_inserts (c : Z) (l buf : list Z) :
  (0 < length buf)%nat ->
  list_inserts 1 l (<[0%nat := c]> buf) !! 0%nat = Some c.
Proof.
  intros Hlen. rewrite list_lookup_inserts_lt by lia.
  now apply list_lookup_insert_eq.
Qed.

Section Reads.

Context {W : Type} `{Posix W}.

Lemma xsgetn_idle (buf : list Z) (n : Z) (s : Implementation) (w : W) :
  is_open s = false \/ n <= 0 -> xsgetn buf n s w = (0, buf, s, w).
Proof.
  intros Hidle. unfold xsgetn.
  replace ((-1 =? mFileDescriptor s) || (n <=? 0)) with true; [reflexivity|].
  symmetry. apply orb_true_iff.
  destruct Hidle as [Hc | Hn];
    [left; now apply not_open_fd | right; now apply Z.leb_le].
Qed.

Lemma xsgetn_putback_one (buf : list Z) (s : Implementation) (w : W) :
  is_open s = true -> mPutbackAvailable s = true ->
  xsgetn buf 1 s w
  = (1, <[0%nat := mPutbackChar s]> buf, set_mPutbackAvailable false s, w).
Proof.
  intros Ho Ha. unfold xsgetn. now rewrite (is_open_fd _ Ho), Ha.
Qed.

Lemma xsgetn_putback_many (buf : list Z) (n : Z) (s : Implementation)
    (w w1 : W) (r : read_result) :
  is_open s = true -> mPutbackAvailable s = true -> 1 < n ->
  sys_read (mFileDescriptor s) (n - 1) w = (r, w1) ->
  xsgetn buf n s w
  = (match r with RError => 0 | RData l => 1 + Z.of_nat (length l) end,
     list_inserts 1 (data_of r) (<[0%nat := mPutbackChar s]> buf),
     set_mPutbackAvailable false s, w1).
Proof.
  intros Ho Ha Hn Hread. unfold xsgetn.
  rewrite (is_open_fd _ Ho), Ha, Hread.
  rewrite (proj2 (Z.leb_gt n 0)), (proj2 (Z.gtb_lt n 1)) by lia.
  cbn [orb]. destruct r as [|l]; cbn [retval_of data_of]; [reflexivity|].
  rewrite (proj2 (Z.eqb_neq (Z.of_nat (length l)) (-1))) by lia. cbn [negb].
  rewrite (proj2 (Z.eqb_neq (-1) (Z.of_nat (length l) + 1))) by lia.
  rewrite (proj2 (Z.eqb_neq 0 (Z.of_nat (length l) + 1))) by lia.
  cbn [orb]. now rewrite Z.add_comm.
Qed.

Lemma xsgetn_direct (buf : list Z) (n : Z) (s : Implementation)
    (w w1 : W) (r : read_result) :
  is_open s = true -> mPutbackAvailable s = false -> 0 < n ->
  sys_read (mFileDescriptor s) n w = (r, w1) ->
  xsgetn buf n s w
  = (match r with RError => 0 | RData l => Z.of_nat (length l) end,
     list_inserts 0 (data_of r) buf, s, w1).
Proof.
  intros Ho Ha Hn Hread. unfold xsgetn.
  rewrite (is_open_fd _ Ho), Ha, Hread.
  rewrite (proj2 (Z.leb_gt n 0)) by lia.
  cbn [orb]. destruct r as [|l]; cbn [retval_of data_of]; [reflexivity|].
  rewrite (proj2 (Z.eqb_neq (-1) (Z.of_nat (length l)))) by lia. cbn [orb].
  destruct (Z.eqb_spec 0 (Z.of_nat (length l))) as [E|E]; [|reflexivity].
  now rewrite <- E.
Qed.

(** With the putback flag clear, [underflow] never looks at
    [mPutbackChar]. *)
Lemma underflow_ignores_stale_char (c : Z) (s : Implementation) (w : W) :
  mPutbackAvailable s = false ->
  (underflow (set_mPutbackChar c s) w).1.1 = (underflow s w).1.1.
Proof.
  intros Ha. unfold underflow.
  cbn [mFileDescriptor mPutbackAvailable set_mPutbackChar]. rewrite Ha.
  destruct (-1 =? mFileDescriptor s); [reflexivity|].
  destruct (sys_read (mFileDescriptor s) 1 w) as [r w1].
  destruct (retval_of r =? 1); [reflexivity|].
  now destruct ((-1 =? retval_of r) || (0 =? retval_of r)).
Qed.

(** Nor does [xsgetn]: its count and the bytes it stores are the
    same. *)
Lemma xsgetn_ignores_stale_char (c : Z) (buf : list Z) (n : Z)
    (s : Implementation) (w : W) :
  mPutbackAvailable s = false ->
  (xsgetn buf n (set_mPutbackChar c s) w).1.1 = (xsgetn buf n s w).1.1.
Proof.
  intros Ha. unfold xsgetn.
  cbn [mFileDescriptor mPutbackAvailable set_mPutbackChar]. rewrite Ha.
  destruct ((-1 =? mFileDescriptor s) || (n <=? 0)); [reflexivity|].
  destruct (sys_read (mFileDescriptor s) n w) as [r w1].
  now destruct ((-1 =? retval_of r) || (0 =? retval_of r)).
Qed.

End Reads.

Section StreamReads.

Context {W : Type} `{Posix W}.

(** C2, as amended: with [n <= 0] or a closed port [xsgetn] returns 0 and
    touches nothing.  On an open port with [0 < n] and room for [n] bytes
    in the target, the result is between 0 and [n] and no putback byte is
    pending afterwards.  If one was pending it is at [target[0]]; with
    [n = 1] no [read] is made and the result is 1; with [1 < n] exactly
    [n - 1] bytes are requested from [read], an error gives 0, and
    otherwise the result is one more than the count [read] returned (so 1
    when [read] reports end-of-file) and the first bytes of the target are
    the putback byte followed by the bytes read.  If none was pending,
    [n] bytes are requested, error and end-of-file give 0, and the result
    is the count [read] returned, the bytes read being the first bytes of
    the target. *)
Theorem xsgetn_delivery (buf : list Z) (n : Z) (s : Implementation) (w : W) :
  (is_open s = false \/ n <= 0 -> xsgetn buf n s w = (0, buf, s, w))
  /\ (is_open s = true -> 0 < n -> n <= Z.of_nat (length buf) ->
      forall ret buf' s' w', xsgetn buf n s w = (ret, buf', s', w') ->
        0 <= ret <= n
        /\ s' = set_mPutbackAvailable false s
        /\ (mPutbackAvailable s = true ->
              buf' !! 0%nat = Some (mPutbackChar s)
              /\ (n = 1 -> ret = 1 /\ w' = w)
              /\ (1 < n ->
                  exists r, sys_read (mFileDescriptor s) (n - 1) w = (r, w')
                    /\ match r with
                       | RError => ret = 0
                       | RData l =>
                           ret = 1 + Z.of_nat (length l)
                           /\ take (Z.to_nat ret) buf' = mPutbackChar s :: l
                       end))
        /\ (mPutbackAvailable s = false ->
              exists r, sys_read (mFileDescriptor s) n w = (r, w')
                /\ match r with
                   | RError => ret = 0 /\ buf' = buf
                   | RData l =>
                       ret = Z.of_nat (length l)
                       /\ take (Z.to_nat ret) buf' = l
                   end)).
Proof.
  split; [apply xsgetn_idle|].
  intros Ho Hn Hroom ret buf' s' w' E.
  assert (Hbuf : (0 < length buf)%nat) by lia.
  destruct (mPutbackAvailable s) eqn:Ha.
  - destruct (Z.eq_dec n 1) as [-> | Hn1].
    + rewrite (xsgetn_putback_one buf s w Ho Ha) in E.
      injection E as <- <- <- <-.
      repeat split; try lia; try discriminate.
      now apply list_lookup_insert_eq.
    + destruct (sys_read (mFileDescriptor s) (n - 1) w) as [r w1] eqn:Hread.
      rewrite (xsgetn_putback_many buf n s w w1 r Ho Ha ltac:(lia) Hread) in E.
      injection E as <- <- <- <-.
      assert (Hfirst : list_inserts 1 (data_of r)
                         (<[0%nat := mPutbackChar s]> buf) !! 0%nat
                       = Some (mPutbackChar s))
        by now apply lookup_first_after_inserts.
      destruct r as [|l]; cbn [data_of] in *.
      * repeat split; try lia; try discriminate; try exact Hfirst.
        intros _. exists RError. auto.
      * pose proof (sys_read_bound _ _ _ _ _ Hread) as Hlen.
        repeat split; try lia; try discriminate; try exact Hfirst.
        intros _. exists (RData l). repeat split.
        replace (Z.to_nat (1 + Z.of_nat (length l))) with (S (length l))
          by lia.
        apply take_inserts_after_first. lia.
  - destruct (sys_read (mFileDescriptor s) n w) as [r w1] eqn:Hread.
    rewrite (xsgetn_direct buf n s w w1 r Ho Ha Hn Hread) in E.
    injection E as <- <- <- <-.
    assert (Hs : s = set_mPutbackAvailable false s).
    { destruct s as [ch av fd]. cbn in Ha. now subst av. }
    destruct r as [|l]; cbn [data_of].
    + repeat split; try lia; try discriminate; try exact Hs.
      intros _. exists RError. auto.
    + pose proof (sys_read_bound _ _ _ _ _ Hread) as Hlen.
      repeat split; try lia; try discriminate; try exact Hs.
      intros _. exists (RData l). repeat split.
      rewrite Nat2Z.id. apply take_inserts_0. lia.
Qed.

(** C10: with a putback byte pending and [1 < n], when the [read] of the
    remaining [n - 1] bytes fails, [xsgetn] returns 0 although the
    putback byte has been written to [target[0]] and the putback flag
    has been cleared; from the state it leaves, what [underflow] and
    [xsgetn] deliver no longer depends on that byte. *)
Theorem xsgetn_putback_lost_on_error (buf : list Z) (n : Z)
    (s : Implementation) (w w1 : W) :
  is_open s = true -> mPutbackAvailable s = true -> 1 < n ->
  (0 < length buf)%nat ->
  sys_read (mFileDescriptor s) (n - 1) w = (RError, w1) ->
  let s' := set_mPutbackAvailable false s in
  let buf' := <[0%nat := mPutbackChar s]> buf in
  xsgetn buf n s w = (0, buf', s', w1)
  /\ buf' !! 0%nat = Some (mPutbackChar s)
  /\ mPutbackAvailable s' = false
  /\ (forall c (w2 : W),
        (underflow (set_mPutbackChar c s') w2).1.1 = (underflow s' w2).1.1)
  /\ (forall c buf2 n2 (w2 : W),
        (xsgetn buf2 n2 (set_mPutbackChar c s') w2).1.1
        = (xsgetn buf2 n2 s' w2).1.1).
Proof.
  intros Ho Ha Hn Hbuf Hread s' buf'.
  split; [| split; [| split; [| split]]].
  - now rewrite (xsgetn_putback_many buf n s w w1 RError Ho Ha Hn Hread).
  - now apply list_lookup_insert_eq.
  - reflexivity.
  - intros c w2. now apply underflow_ignores_stale_char.
  - intros c buf2 n2 w2. now apply xsgetn_ignores_stale_char.
Qed.

End StreamReads.

(** C2, as stated, fails on end-of-file after a putback byte: the byte 65
    is pending, two bytes are asked for, the [read] of the second reports
    end-of-file (it returns 0), and [xsgetn] returns 1, not 0. *)
Lemma xsgetn_putback_eof_counterexample :
  sys_read 3 (2 - 1) sim_tty = (RData [], sim_tty)
  /\ xsgetn [0; 0] 2 (sim_port 65 true) sim_tty
     = (1, [65; 0], sim_port 65 false, sim_tty).
Proof. vm_compute. auto. Qed.

Lemma xsgetn_delivery_witness :
  0 <= 3 <= 3
  /\ sim_port 65 false = set_mPutbackAvailable false (sim_port 65 true)
  /\ [65; 66; 67] !! 0%nat = Some 65
  /\ exists r,
       sys_read 3 (3 - 1) (sim_with_rx [66; 67] sim_tty) = (r, sim_tty)
       /\ match r with
          | RError => 3 = 0
          | RData l =>
              3 = 1 + Z.of_nat (length l)
              /\ take (Z.to_nat 3) [65; 66; 67] = 65 :: l
          end.
Proof.
  assert (E : xsgetn [0; 0; 0] 3 (sim_port 65 true)
                     (sim_with_rx [66; 67] sim_tty)
              = (3, [65; 66; 67], sim_port 65 false, sim_tty))
    by (vm_compute; reflexivity).
  destruct (proj2 (xsgetn_delivery [0; 0; 0] 3 (sim_port 65 true)
                     (sim_with_rx [66; 67] sim_tty))
              eq_refl ltac:(lia) ltac:(cbn; lia) _ _ _ _ E)
    as (Hret & Hs & Hpending & _).
  destruct (Hpending eq_refl) as (Hfirst & _ & Hmany).
  repeat split; try lia; try assumption.
  apply Hmany. lia.
Defined.

Lemma xsgetn_putback_lost_on_error_witness :
  xsgetn [0; 0] 2 (sim_port 65 true) (sim_with_faults [true] sim_tty)
  = (0, [65; 0], sim_port 65 false, sim_tty)
  /\ [65; 0] !! 0%nat = Some 65
  /\ mPutbackAvailable (sim_port 65 false) = false.
Proof.
  assert (Hread : sys_read (mFileDescriptor (sim_port 65 true)) (2 - 1)
                           (sim_with_faults [true] sim_tty)
                  = (RError, sim_tty)) by reflexivity.
  destruct (xsgetn_putback_lost_on_error [0; 0] 2 (sim_port 65 true)
              (sim_with_faults [true] sim_tty) sim_tty
              eq_refl eq_refl ltac:(lia) ltac:(cbn; lia) Hread)
    as (Hcall & Hfirst & Hflag & _).
  repeat split; assumption.
Defined.

Section Peek.

Context {W : Type} `{Posix W}.

(** With a byte pending on an open port, [xsgetn] puts it first. *)
Lemma xsgetn_pending_first (buf : list Z) (n : Z) (s : Implementation)
    (w : W) :
  is_open s = true -> mPutbackAvailable s = true -> 0 < n ->
  (0 < length buf)%nat ->
  (xsgetn buf n s w).1.1.2 !! 0%nat = Some (mPutbackChar s).
Proof.
  intros Ho Ha Hn Hbuf.
  destruct (Z.eq_dec n 1) as [-> | Hn1].
  - rewrite (xsgetn_putback_one buf s w Ho Ha). cbn [fst snd].
    now apply list_lookup_insert_eq.
  - destruct (sys_read (mFileDescriptor s) (n - 1) w) as [r w1] eqn:Hread.
    rewrite (xsgetn_putback_many buf n s w w1 r Ho Ha ltac:(lia) Hread).
    cbn [fst snd]. now apply lookup_first_after_inserts.
Qed.

(** A one-byte [read] that does not return 1 stores nothing. *)
Lemma read_one_nothing_stored (fd : Z) (w w' : W) (r : read_result)
    (s : Implementation) :
  sys_read fd 1 w = (r, w') -> retval_of r <> 1 ->
  match data_of r with
  | [] => s
  | ch :: _ => set_mPutbackChar ch s
  end = s.
Proof.
  intros Hread E. destruct r as [|[|ch l]]; cbn [data_of]; try reflexivity.
  exfalso. pose proof (sys_read_bound _ _ _ _ _ Hread) as Hlen.
  cbn [retval_of length] in E, Hlen. lia.
Qed.

(** A [read] that returns 1 stored exactly one byte. *)
Lemma read_one_byte (fd : Z) (w w' : W) (r : read_result) :
  sys_read fd 1 w = (r, w') -> retval_of r = 1 -> exists b, r = RData [b].
Proof.
  intros Hread E. destruct r as [|[|b [|b' l]]]; cbn [retval_of length] in E;
    try discriminate; [now exists b | lia].
Qed.

(** What [showmanyc] leaves when its probe obtained [b]. *)
Lemma showmanyc_probe (s : Implementation) (w : W) (b : Z) :
  is_open s = true -> mPutbackAvailable s = false ->
  showmanyc_probe_obtains s w b ->
  ((showmanyc s w).1.1 = 1 \/ (showmanyc s w).1.1 = -1)
  /\ (showmanyc s w).1.2 = set_mPutbackAvailable true (set_mPutbackChar b s)
  /\ 0 <= b < 256.
Proof.
  intros Ho Ha (r1 & w1 & w2 & Hset & Hr1 & Hread).
  pose proof (sys_read_bytes _ _ _ _ _ Hread) as Hbytes.
  apply Forall_cons in Hbytes as [Hb _].
  unfold showmanyc. rewrite (is_open_fd _ Ho), Ha, Hset.
  rewrite (proj2 (Z.eqb_neq (-1) r1)) by congruence.
  rewrite Hread. cbn [data_of].
  change (retval_of (RData [b])) with 1. change (1 =? 1) with true.
  destruct (fcntl_setfl (mFileDescriptor s)
              (fcntl_getfl (mFileDescriptor s) w) w2) as [r3 w3].
  destruct (-1 =? r3); cbn [fst snd]; auto.
Qed.

(** With a byte pending on an open port and room for [n] bytes,
    [xsgetn] puts the byte first, clears the flag and counts the byte,
    unless the [read] of the other [n - 1] bytes fails. *)
Lemma xsgetn_pending_delivery (buf : list Z) (n : Z) (s : Implementation)
    (w : W) :
  is_open s = true -> mPutbackAvailable s = true ->
  0 < n -> n <= Z.of_nat (length buf) ->
  (xsgetn buf n s w).1.1.2 !! 0%nat = Some (mPutbackChar s)
  /\ (xsgetn buf n s w).1.2 = set_mPutbackAvailable false s
  /\ (n = 1 -> (xsgetn buf n s w).1.1.1 = 1 /\ (xsgetn buf n s w).2 = w)
  /\ (1 < n ->
      exists r,
        sys_read (mFileDescriptor s) (n - 1) w = (r, (xsgetn buf n s w).2)
        /\ match r with
           | RError => (xsgetn buf n s w).1.1.1 = 0
           | RData l =>
               (xsgetn buf n s w).1.1.1 = 1 + Z.of_nat (length l)
               /\ take (Z.to_nat (xsgetn buf n s w).1.1.1)
                       (xsgetn buf n s w).1.1.2
                  = mPutbackChar s :: l
           end).
Proof.
  intros Ho Ha Hn Hroom.
  assert (Hbuf : (0 < length buf)%nat) by lia.
  destruct (Z.eq_dec n 1) as [-> | Hn1].
  - rewrite (xsgetn_putback_one buf s w Ho Ha). cbn [fst snd].
    repeat split; try lia. now apply list_lookup_insert_eq.
  - destruct (sys_read (mFileDescriptor s) (n - 1) w) as [r w1] eqn:Hread.
    rewrite (xsgetn_putback_many buf n s w w1 r Ho Ha ltac:(lia) Hread).
    cbn [fst snd].
    split; [now apply lookup_first_after_inserts|].
    split; [reflexivity|]. split; [lia|].
    intros _. exists r. split; [reflexivity|].
    destruct r as [|l]; cbn [data_of]; [reflexivity|].
    pose proof (sys_read_bound _ _ _ _ _ Hread) as Hlen.
    split; [reflexivity|].
    replace (Z.to_nat (1 + Z.of_nat (length l))) with (S (length l)) by lia.
    apply take_inserts_after_first. lia.
Qed.

(** C9, as amended: [showmanyc] never discards a byte its probe
    obtained.  On a port that is not open it returns -1, and with a byte
    pending it returns 1, both without a system call and without
    touching the object; when switching to non-blocking fails it returns
    -1 with the object untouched.  With no putback byte pending, when the
    probe obtains the byte [b], [b] is stored in the putback cell and
    the flag is set, and the result is 1 when restoring the descriptor's
    flags succeeds and -1 when it fails; the next [underflow] returns
    [b], and the next [xsgetn] puts [b] at the start of the target,
    clears the flag, and counts it (1 for [n = 1], one more than the
    count of [read] for [1 < n]) unless the [read] of the other bytes
    fails, when it returns 0.  When the probe obtains nothing the
    putback state is as it was and the result is 0, or -1 when restoring
    the flags fails.  So a result of 1 always leaves a byte pending, a
    result of 0 leaves the putback state as it was, and a result of -1
    leaves it as it was unless the probe had obtained a byte, which is
    then pending. *)
Theorem showmanyc_keeps_probed_byte (s : Implementation) (w : W) :
  (is_open s = false -> showmanyc s w = (-1, s, w))
  /\ (is_open s = true -> mPutbackAvailable s = true ->
      showmanyc s w = (1, s, w))
  /\ (forall w1,
        is_open s = true -> mPutbackAvailable s = false ->
        fcntl_setfl (mFileDescriptor s)
          (Z.lor (fcntl_getfl (mFileDescriptor s) w) Sys.O_NONBLOCK) w
        = (-1, w1) ->
        showmanyc s w = (-1, s, w1))
  /\ (forall b r1 w1 w2 r3 w3,
        is_open s = true -> mPutbackAvailable s = false ->
        fcntl_setfl (mFileDescriptor s)
          (Z.lor (fcntl_getfl (mFileDescriptor s) w) Sys.O_NONBLOCK) w
        = (r1, w1) ->
        r1 <> -1 ->
        sys_read (mFileDescriptor s) 1 w1 = (RData [b], w2) ->
        fcntl_setfl (mFileDescriptor s)
          (fcntl_getfl (mFileDescriptor s) w) w2 = (r3, w3) ->
        let s' := set_mPutbackAvailable true (set_mPutbackChar b s) in
        showmanyc s w = ((if -1 =? r3 then -1 else 1), s', w3)
        /\ (forall w4 : W, underflow s' w4 = (b, s', w4))
        /\ (forall buf n (w4 : W),
              0 < n -> n <= Z.of_nat (length buf) ->
              (xsgetn buf n s' w4).1.1.2 !! 0%nat = Some b
              /\ (xsgetn buf n s' w4).1.2 = set_mPutbackAvailable false s'
              /\ (n = 1 ->
                  (xsgetn buf n s' w4).1.1.1 = 1
                  /\ (xsgetn buf n s' w4).2 = w4)
              /\ (1 < n ->
                  exists r,
                    sys_read (mFileDescriptor s) (n - 1) w4
                    = (r, (xsgetn buf n s' w4).2)
                    /\ match r with
                       | RError => (xsgetn buf n s' w4).1.1.1 = 0
                       | RData l =>
                           (xsgetn buf n s' w4).1.1.1
                           = 1 + Z.of_nat (length l)
                           /\ take (Z.to_nat (xsgetn buf n s' w4).1.1.1)
                                   (xsgetn buf n s' w4).1.1.2
                              = b :: l
                       end)))
  /\ (forall r r1 w1 w2 r3 w3,
        is_open s = true -> mPutbackAvailable s = false ->
        fcntl_setfl (mFileDescriptor s)
          (Z.lor (fcntl_getfl (mFileDescriptor s) w) Sys.O_NONBLOCK) w
        = (r1, w1) ->
        r1 <> -1 ->
        sys_read (mFileDescriptor s) 1 w1 = (r, w2) ->
        retval_of r <> 1 ->
        fcntl_setfl (mFileDescriptor s)
          (fcntl_getfl (mFileDescriptor s) w) w2 = (r3, w3) ->
        showmanyc s w = ((if -1 =? r3 then -1 else 0), s, w3))
  /\ ((showmanyc s w).1.1 = 1 ->
        mPutbackAvailable (showmanyc s w).1.2 = true)
  /\ ((showmanyc s w).1.1 = 0 -> (showmanyc s w).1.2 = s)
  /\ ((showmanyc s w).1.1 = -1 ->
        (showmanyc s w).1.2 = s
        \/ exists b,
             mPutbackAvailable s = false
             /\ showmanyc_probe_obtains s w b
             /\ (showmanyc s w).1.2
                = set_mPutbackAvailable true (set_mPutbackChar b s)).
Proof.
  split; [| split; [| split; [| split; [| split; [| split; [| split]]]]]].
  - intros Hc. unfold showmanyc. now rewrite (not_open_fd _ Hc).
  - intros Ho Ha. unfold showmanyc. now rewrite (is_open_fd _ Ho), Ha.
  - intros w1 Ho Ha Hset. unfold showmanyc.
    now rewrite (is_open_fd _ Ho), Ha, Hset.
  - intros b r1 w1 w2 r3 w3 Ho Ha Hset Hr1 Hread Hrestore s'.
    pose proof (sys_read_bytes _ _ _ _ _ Hread) as Hbytes.
    apply Forall_cons in Hbytes as [Hb _].
    assert (Ho' : is_open s' = true) by exact Ho.
    split; [| split].
    + unfold showmanyc. rewrite (is_open_fd _ Ho), Ha, Hset.
      rewrite (proj2 (Z.eqb_neq (-1) r1)) by congruence.
      rewrite Hread. cbn [data_of].
      change (retval_of (RData [b])) with 1. change (1 =? 1) with true.
      rewrite Hrestore. now destruct (-1 =? r3).
    + intros w4. rewrite (underflow_pending s' w4 Ho' eq_refl).
      cbn [mPutbackChar s' set_mPutbackAvailable set_mPutbackChar].
      now rewrite (byte_to_int_type b Hb).
    + intros buf n w4 Hn Hroom.
      exact (xsgetn_pending_delivery buf n s' w4 Ho' eq_refl Hn Hroom).
  - intros r r1 w1 w2 r3 w3 Ho Ha Hset Hr1 Hread Hret Hrestore.
    unfold showmanyc. rewrite (is_open_fd _ Ho), Ha, Hset.
    rewrite (proj2 (Z.eqb_neq (-1) r1)) by congruence.
    rewrite Hread, (read_one_nothing_stored _ _ _ _ s Hread Hret).
    rewrite (proj2 (Z.eqb_neq (retval_of r) 1)) by exact Hret.
    rewrite Hrestore. now destruct (-1 =? r3).
  - unfold showmanyc.
    destruct (-1 =? mFileDescriptor s); [discriminate|].
    destruct (mPutbackAvailable s) eqn:Ha; [intros _; exact Ha|].
    destruct (fcntl_setfl _ _ w) as [r1 w1].
    destruct (-1 =? r1); [discriminate|].
    destruct (sys_read (mFileDescriptor s) 1 w1) as [r w2].
    destruct (retval_of r =? 1);
      destruct (fcntl_setfl _ _ w2) as [r3 w3];
      destruct (-1 =? r3); cbn [fst snd]; try discriminate; reflexivity.
  - unfold showmanyc.
    destruct (-1 =? mFileDescriptor s); [discriminate|].
    destruct (mPutbackAvailable s) eqn:Ha; [discriminate|].
    destruct (fcntl_setfl _ _ w) as [r1 w1].
    destruct (-1 =? r1); [discriminate|].
    destruct (sys_read (mFileDescriptor s) 1 w1) as [r w2] eqn:Hread.
    destruct (Z.eqb_spec (retval_of r) 1) as [E|E];
      destruct (fcntl_setfl _ _ w2) as [r3 w3];
      destruct (-1 =? r3); cbn [fst snd]; try discriminate.
    + intros E0. rewrite E0 in E. discriminate E.
    + intros _. now apply (read_one_nothing_stored _ _ _ _ _ Hread).
  - unfold showmanyc, showmanyc_probe_obtains.
    destruct (-1 =? mFileDescriptor s); [now left|].
    destruct (mPutbackAvailable s) eqn:Ha; [discriminate|].
    destruct (fcntl_setfl _ _ w) as [r1 w1].
    destruct (Z.eqb_spec (-1) r1) as [Hr1|Hr1]; [now left|].
    destruct (sys_read (mFileDescriptor s) 1 w1) as [r w2] eqn:Hread.
    destruct (Z.eqb_spec (retval_of r) 1) as [E|E];
      destruct (fcntl_setfl _ _ w2) as [r3 w3];
      destruct (-1 =? r3); cbn [fst snd]; intros Hret.
    + right. destruct (read_one_byte _ _ _ _ Hread E) as (b & ->).
      exists b. split; [reflexivity|]. split; [|reflexivity].
      exists r1, w1, w2. auto.
    + rewrite Hret in E. discriminate E.
    + left. now apply (read_one_nothing_stored _ _ _ _ _ Hread).
    + discriminate Hret.
Qed.

End Peek.

(** C9, as stated, fails when restoring the descriptor's flags fails
    after the probe: no putback byte is pending, the probe reads the byte
    65, the second [fcntl] fails, and [showmanyc] returns -1 with the
    putback state changed (65 is pending). *)
Lemma showmanyc_error_after_probe_counterexample :
  showmanyc (sim_port 0 false)
            (sim_with_faults [false; false; true] (sim_with_rx [65] sim_tty))
  = (-1, sim_port 65 true, sim_tty_nonblocking [])
  /\ mPutbackAvailable (sim_port 0 false) = false
  /\ mPutbackAvailable (sim_port 65 true) = true.
Proof. vm_compute. auto. Qed.

Lemma showmanyc_keeps_probed_byte_witness :
  (showmanyc (sim_port 0 false) (sim_with_rx [65] sim_tty)
   = (1, sim_port 65 true, sim_tty)
   /\ (forall w4 : Sim,
         underflow (sim_port 65 true) w4 = (65, sim_port 65 true, w4)))
  /\ showmanyc (sim_port 0 false)
               (sim_with_faults [false; false; true]
                                (sim_with_rx [65] sim_tty))
     = (-1, sim_port 65 true, sim_tty_nonblocking [])
  /\ showmanyc (sim_port 0 false) sim_tty = (0, sim_port 0 false, sim_tty)
  /\ showmanyc (sim_port 65 true) sim_tty = (1, sim_port 65 true, sim_tty).
Proof.
  split; [| split; [| split]].
  - destruct (proj1 (proj2 (proj2 (proj2
               (showmanyc_keeps_probed_byte (sim_port 0 false)
                  (sim_with_rx [65] sim_tty)))))
              65 0 (sim_tty_nonblocking [65]) (sim_tty_nonblocking [])
              0 sim_tty)
      as (Hret & Hunder & _);
      [reflexivity | reflexivity | reflexivity | lia | reflexivity
      | reflexivity |].
    split; [exact Hret | exact Hunder].
  - apply (proj1 (proj2 (proj2 (proj2
             (showmanyc_keeps_probed_byte (sim_port 0 false)
                (sim_with_faults [false; false; true]
                                 (sim_with_rx [65] sim_tty))))))
            65 0
            (sim_with_faults [false; true] (sim_tty_nonblocking [65]))
            (sim_with_faults [true] (sim_tty_nonblocking []))
            (-1) (sim_tty_nonblocking []));
      [reflexivity | reflexivity | reflexivity | lia | reflexivity
      | reflexivity].
  - apply (proj1 (proj2 (proj2 (proj2 (proj2
             (showmanyc_keeps_probed_byte (sim_port 0 false) sim_tty)))))
            (RData []) 0 (sim_tty_nonblocking []) (sim_tty_nonblocking [])
            0 sim_tty);
      [reflexivity | reflexivity | reflexivity | lia | reflexivity
      | cbn; lia | reflexivity].
  - apply (proj1 (proj2 (showmanyc_keeps_probed_byte (sim_port 65 true)
                           sim_tty))); reflexivity.
Defined.

(** * Further properties of the stream primitives *)

Lemma to_int_type_range (ch : Z) : 0 <= traits_type.to_int_type ch < 256.
Proof. unfold traits_type.to_int_type. apply Z.mod_pos_bound. lia. Qed.

Lemma to_int_type_idem (ch : Z) :
  traits_type.to_int_type (traits_type.to_int_type ch)
  = traits_type.to_int_type ch.
Proof. unfold traits_type.to_int_type. apply Z.mod_mod. lia. Qed.

Lemma retval_of_lower (r : read_result) : -1 <= retval_of r.
Proof. destruct r; cbn [retval_of]; lia. Qed.

Section Peeking.

Context {W : Type} `{Posix W}.

(** X1: what [underflow] returns and leaves: either the end-of-file marker
    with the object untouched, or a value in [0, 255] that is the pending
    putback byte of the object it leaves. *)
Theorem underflow_result (s s1 : Implementation) (w w1 : W) (c : Z) :
  underflow s w = (c, s1, w1) ->
  (c = traits_type.eof /\ s1 = s
   /\ (is_open s = true -> mPutbackAvailable s = false))
  \/ (0 <= c < 256 /\ is_open s1 = true /\ mPutbackAvailable s1 = true
      /\ traits_type.to_int_type (mPutbackChar s1) = c
      /\ mFileDescriptor s1 = mFileDescriptor s).
Proof.
  unfold underflow.
  destruct (-1 =? mFileDescriptor s) eqn:Efd.
  { intros [= <- <- <-]. left. repeat split.
    unfold is_open. rewrite Efd. discriminate. }
  assert (Ho : is_open s = true) by (unfold is_open; now rewrite Efd).
  destruct (mPutbackAvailable s) eqn:Ha.
  { intros [= <- <- <-]. right.
    repeat split; auto; apply to_int_type_range. }
  destruct (sys_read (mFileDescriptor s) 1 w) as [r w2] eqn:Hread.
  destruct (Z.eqb_spec (retval_of r) 1) as [E1|E1].
  { intros [= <- <- <-]. right.
    repeat split; auto; apply to_int_type_range. }
  destruct ((-1 =? retval_of r) || (0 =? retval_of r)) eqn:E0.
  { intros [= <- <- <-]. left. auto. }
  exfalso. apply orb_false_iff in E0 as [Em E0].
  apply Z.eqb_neq in Em, E0. pose proof (retval_of_lower r) as Hlow.
  destruct r as [|l]; cbn [retval_of] in *; [lia|].
  pose proof (sys_read_bound _ _ _ _ _ Hread). lia.
Qed.

(** An [underflow] that returns something else than the end-of-file
    marker leaves that byte pending on an open port. *)
Lemma underflow_byte_pending (s s1 : Implementation) (w w1 : W) (c : Z) :
  underflow s w = (c, s1, w1) -> c <> traits_type.eof ->
  is_open s1 = true /\ mPutbackAvailable s1 = true
  /\ traits_type.to_int_type (mPutbackChar s1) = c.
Proof.
  unfold underflow.
  destruct (-1 =? mFileDescriptor s) eqn:Efd;
    [intros [= <- <- <-] Hc; now contradict Hc|].
  assert (Ho : is_open s = true) by (unfold is_open; now rewrite Efd).
  destruct (mPutbackAvailable s) eqn:Ha; [intros [= <- <- <-] _; auto|].
  destruct (sys_read (mFileDescriptor s) 1 w) as [r w2] eqn:Hread.
  destruct (Z.eqb_spec (retval_of r) 1) as [E1|E1];
    [intros [= <- <- <-] _; auto|].
  destruct ((-1 =? retval_of r) || (0 =? retval_of r)) eqn:E0;
    [intros [= <- <- <-] Hc; now contradict Hc|].
  exfalso. apply orb_false_iff in E0 as [Em E0].
  apply Z.eqb_neq in Em, E0. pose proof (retval_of_lower r) as Hlow.
  destruct r as [|l]; cbn [retval_of] in *; [lia|].
  pose proof (sys_read_bound _ _ _ _ _ Hread). lia.
Qed.

(** X2: peeking is stable and consuming takes the peeked byte: after an
    [underflow] that returned a byte, a second [underflow] returns the
    same byte and changes nothing, and [uflow] returns the same byte,
    makes no system call and leaves no byte pending. *)
Theorem underflow_then_uflow (s s1 : Implementation) (w w1 : W) (c : Z) :
  underflow s w = (c, s1, w1) -> c <> traits_type.eof ->
  underflow s1 w1 = (c, s1, w1)
  /\ uflow s1 w1 = (c, set_mPutbackAvailable false s1, w1)
  /\ mPutbackAvailable (set_mPutbackAvailable false s1) = false.
Proof.
  intros E Hc.
  destruct (underflow_byte_pending _ _ _ _ _ E Hc) as (Ho & Ha & Hch).
  assert (E1 : underflow s1 w1 = (c, s1, w1))
    by now rewrite (underflow_pending s1 w1 Ho Ha), Hch.
  split; [exact E1 | split; [| reflexivity]].
  unfold uflow. now rewrite E1.
Qed.

(** [uflow] never leaves a byte pending, and it returns the end-of-file
    marker only when [underflow] does. *)
Lemma uflow_clears (s s1 : Implementation) (w w1 : W) (c : Z) :
  uflow s w = (c, s1, w1) ->
  mPutbackAvailable s1 = false
  /\ exists s0, underflow s w = (c, s0, w1)
                /\ s1 = set_mPutbackAvailable false s0.
Proof.
  unfold uflow. destruct (underflow s w) as [[c0 s0] w0].
  intros [= <- <- <-]. split; [reflexivity|]. now exists s0.
Qed.

(** X3: putting a byte back and getting it again: on an open port with the
    putback cell empty, [pbackfail b] followed by [uflow] returns [b]
    both times, makes no system call, and leaves the cell empty, so that
    any byte can be put back again. *)
Theorem pbackfail_then_uflow (s : Implementation) (w : W) (b b' : Z) :
  is_open s = true -> mPutbackAvailable s = false ->
  0 <= b < 256 -> 0 <= b' < 256 ->
  let s1 := (pbackfail b s).2 in
  let s2 := (uflow s1 w).1.2 in
  (pbackfail b s).1 = b
  /\ uflow s1 w = (b, s2, w)
  /\ mPutbackAvailable s2 = false
  /\ (pbackfail b' s2).1 = b'
  /\ mPutbackChar (pbackfail b' s2).2 = b'.
Proof.
  intros Ho Ha Hb Hb' s1 s2.
  destruct (byte_not_eof b Hb) as [Hne Hnot].
  assert (E1 : pbackfail b s
               = (b, set_mPutbackAvailable true (set_mPutbackChar b s))).
  { unfold pbackfail.
    now rewrite (is_open_fd _ Ho), Ha, Hne, Hnot, (byte_to_char_type b Hb). }
  subst s2 s1. rewrite E1. cbn [fst snd].
  set (s1 := set_mPutbackAvailable true (set_mPutbackChar b s)).
  assert (Ho1 : is_open s1 = true) by exact Ho.
  assert (E2 : uflow s1 w = (b, set_mPutbackAvailable false s1, w)).
  { unfold uflow. rewrite (underflow_pending s1 w Ho1 eq_refl).
    cbn [mPutbackChar s1 set_mPutbackAvailable set_mPutbackChar].
    now rewrite (byte_to_int_type b Hb). }
  rewrite E2. cbn [fst snd].
  destruct (byte_not_eof b' Hb') as [Hne' Hnot'].
  assert (Ho2 : is_open (set_mPutbackAvailable false s1) = true) by exact Ho.
  unfold pbackfail. rewrite (is_open_fd _ Ho2).
  cbn [mPutbackAvailable set_mPutbackAvailable]. rewrite Hne', Hnot'.
  cbn [fst snd mPutbackChar set_mPutbackAvailable set_mPutbackChar].
  rewrite (byte_to_char_type b' Hb'). auto.
Qed.

(** X4: with nothing pending on an open port, [uflow] takes exactly the byte
    a one-byte [read] returns and keeps nothing back, so the next
    [uflow] reads the device again. *)
Theorem uflow_reads_through (s : Implementation) (w w1 : W) (b : Z) :
  is_open s = true -> mPutbackAvailable s = false ->
  sys_read (mFileDescriptor s) 1 w = (RData [b], w1) ->
  let s1 := set_mPutbackAvailable false (set_mPutbackChar b s) in
  uflow s w = (b, s1, w1)
  /\ forall r w2, sys_read (mFileDescriptor s) 1 w1 = (r, w2) ->
       (uflow s1 w1).2 = w2
       /\ (r = RError \/ r = RData [] ->
           (uflow s1 w1).1.1 = traits_type.eof).
Proof.
  intros Ho Ha Hread s1.
  pose proof (sys_read_bytes _ _ _ _ _ Hread) as Hbytes.
  apply Forall_cons in Hbytes as [Hb _].
  split.
  - unfold uflow, underflow. rewrite (is_open_fd _ Ho), Ha, Hread.
    cbn [data_of nth]. change (retval_of (RData [b])) with 1.
    change (1 =? 1) with true. cbv iota beta.
    now rewrite (byte_to_int_type b Hb).
  - intros r w2 Hread2. unfold uflow, underflow.
    assert (Ho1 : is_open s1 = true) by exact Ho.
    rewrite (is_open_fd _ Ho1).
    cbn [mPutbackAvailable mFileDescriptor s1 set_mPutbackAvailable
         set_mPutbackChar].
    rewrite Hread2. split.
    + destruct (retval_of r =? 1); [reflexivity|].
      now destruct ((-1 =? retval_of r) || (0 =? retval_of r)).
    + intros [-> | ->]; reflexivity.
Qed.

End Peeking.

Section Writing.

Context {W : Type} `{PosixWrite W}.

(** X5: [xsputn] writes at most once: with a closed port or [n <= 0] it
    returns 0 and makes no system call; otherwise it hands the first [n]
    bytes of the source to one [write] and returns the count [write]
    took, or 0 when [write] failed; the result is between 0 and [n]. *)
Theorem xsputn_result (buf : list Z) (n : Z) (s : Implementation) (w : W) :
  (is_open s = false \/ n <= 0 -> xsputn buf n s w = (0, w))
  /\ (is_open s = true -> 0 < n ->
      exists r,
        sys_write (mFileDescriptor s) (take (Z.to_nat n) buf) w
        = (r, (xsputn buf n s w).2)
        /\ (xsputn buf n s w).1 = (if r =? -1 then 0 else r)
        /\ 0 <= (xsputn buf n s w).1 <= n).
Proof.
  split.
  - intros Hidle. unfold xsputn.
    replace ((-1 =? mFileDescriptor s) || (n <=? 0)) with true;
      [reflexivity|].
    symmetry. apply orb_true_iff.
    destruct Hidle as [Hc | Hn];
      [left; now apply not_open_fd | right; now apply Z.leb_le].
  - intros Ho Hn. unfold xsputn.
    rewrite (is_open_fd _ Ho), (proj2 (Z.leb_gt n 0)) by lia. cbn [orb].
    destruct (sys_write (mFileDescriptor s) (take (Z.to_nat n) buf) w)
      as [r w1] eqn:Hw.
    pose proof (sys_write_bound _ _ _ _ _ Hw) as Hr.
    rewrite length_take in Hr.
    exists r. destruct (Z.eqb_spec (-1) r) as [<- | Hm]; cbn [orb fst snd].
    + repeat split; lia.
    + rewrite (proj2 (Z.eqb_neq r (-1))) by congruence.
      destruct (Z.eqb_spec 0 r) as [<- | H0]; cbn [fst snd];
        repeat split; lia.
Qed.

(** X6: [overflow] writes the low byte of [c] and reports it: the result is
    the end-of-file marker exactly when the port is closed, [c] is the
    end-of-file marker (then no system call is made), or the one-byte
    [write] did not take the byte; otherwise the result is [c] and the
    [write] took exactly one byte, the low eight bits of [c]. *)
Theorem overflow_result (c : Z) (s : Implementation) (w : W) :
  (is_open s = false \/ c = traits_type.eof ->
     overflow c s w = (traits_type.eof, w))
  /\ (is_open s = true -> c <> traits_type.eof ->
      exists r,
        sys_write (mFileDescriptor s) [c mod 256] w = (r, (overflow c s w).2)
        /\ (r <> 1 -> (overflow c s w).1 = traits_type.eof)
        /\ (r = 1 -> (overflow c s w).1 = c)
        /\ ((overflow c s w).1 <> traits_type.eof -> r = 1)).
Proof.
  split.
  - intros [Hc | ->]; unfold overflow.
    + now rewrite (not_open_fd _ Hc).
    + now destruct (-1 =? mFileDescriptor s).
  - intros Ho Hc. unfold overflow, traits_type.to_char_type.
    rewrite (is_open_fd _ Ho).
    unfold traits_type.eq_int_type, traits_type.not_eof,
      traits_type.eq_int_type.
    rewrite (proj2 (Z.eqb_neq c traits_type.eof)) by exact Hc.
    destruct (sys_write (mFileDescriptor s) [c mod 256] w) as [r w1] eqn:Hw.
    pose proof (sys_write_bound _ _ _ _ _ Hw) as Hr. cbn [length] in Hr.
    exists r.
    destruct (Z.eqb_spec (-1) r) as [<- | Hm]; cbn [orb fst snd].
    + repeat split; try lia; try reflexivity; intros E; now contradict E.
    + destruct (Z.eqb_spec 0 r) as [<- | H0]; cbn [fst snd].
      * repeat split; try lia; try reflexivity; intros E; now contradict E.
      * repeat split; try lia; try reflexivity.
Qed.

End Writing.

Section ClosedPort.

Context {W : Type} `{Posix W} `{PosixWrite W} (hdr : Header).

(** X7: on a stream buffer that is not open every stream primitive fails with
    its failure value and makes no system call; the object is left as it
    is, except that [uflow] still clears the putback flag. *)
Theorem closed_port_stream (s : Implementation) (w : W) :
  is_open s = false ->
  (forall buf n, xsgetn buf n s w = (0, buf, s, w))
  /\ (forall buf n, xsputn buf n s w = (0, w))
  /\ showmanyc s w = (-1, s, w)
  /\ underflow s w = (traits_type.eof, s, w)
  /\ uflow s w = (traits_type.eof, set_mPutbackAvailable false s, w)
  /\ (forall c, pbackfail c s = (traits_type.eof, s))
  /\ (forall c, overflow c s w = (traits_type.eof, w))
  /\ close s w = (false, s, w).
Proof.
  intros Hc. pose proof (not_open_fd _ Hc) as Hfd.
  unfold xsgetn, xsputn, showmanyc, uflow, underflow, pbackfail, overflow,
    close.
  rewrite Hfd, Hc. cbn [orb Bool.eqb]. repeat split.
Qed.

(** On a stream buffer that is not open every attribute getter and
    setter returns its failure value ([BAUD_INVALID], [CHAR_SIZE_INVALID],
    0 for the stop bits, [PARITY_INVALID], [FLOW_CONTROL_INVALID], -1 for
    VMIN and VTIME) and the setters and the two initialisation routines
    make no system call. *)
Theorem closed_port_attributes (s : Implementation) (w : W) :
  is_open s = false ->
  (GetBaudRate s w = BAUD_INVALID
   /\ GetCharSize s w = CHAR_SIZE_INVALID
   /\ GetNumOfStopBits s w = 0
   /\ GetParity s w = PARITY_INVALID
   /\ GetFlowControl s w = FLOW_CONTROL_INVALID
   /\ GetVMin s w = -1 /\ GetVTime s w = -1)
  /\ (forall x, SetBaudRate x s w = (BAUD_INVALID, w))
  /\ (forall x, SetCharSize x s w = (CHAR_SIZE_INVALID, w))
  /\ (forall x, SetNumOfStopBits x s w = (0, w))
  /\ (forall x, SetParity x s w = (PARITY_INVALID, w))
  /\ (forall x, SetFlowControl x s w = (FLOW_CONTROL_INVALID, w))
  /\ (forall x, SetVMin x s w = (-1, w))
  /\ (forall x, SetVTime x s w = (-1, w))
  /\ SetParametersToDefault hdr s w = (-1, w)
  /\ InitializeSerialPort hdr s w = (-1, w).
Proof.
  intros Hc. pose proof (not_open_fd _ Hc) as Hfd.
  unfold GetBaudRate, GetCharSize, GetNumOfStopBits, GetParity,
    GetFlowControl, GetVMin, GetVTime, SetBaudRate, SetCharSize,
    SetNumOfStopBits, SetParity, SetFlowControl, SetVMin, SetVTime,
    SetParametersToDefault, InitializeSerialPort.
  rewrite Hfd. repeat split.
Qed.

End ClosedPort.

(** * Further properties of the attribute codec *)

Lemma land_bitwise (m k c : Z) (n : Z) :
  Z.land m k = c -> Z.testbit m n && Z.testbit k n = Z.testbit c n.
Proof. intros <-. now rewrite Z.land_spec. Qed.

Lemma land_lor_disjoint (x m k : Z) :
  Z.land m k = 0 -> Z.land (Z.lor x m) k = Z.land x k.
Proof.
  intros Hd. rewrite Z.land_lor_distr_l, Hd. apply Z.lor_0_r.
Qed.

Lemma land_clear_disjoint (x m k : Z) :
  Z.land m k = 0 -> Z.land (Z.land x (Z.lnot m)) k = Z.land x k.
Proof.
  intros Hd. apply Z.bits_inj'. intros n Hn.
  pose proof (land_bitwise m k 0 n Hd) as Hb. rewrite Z.bits_0 in Hb.
  rewrite !Z.land_spec, Z.lnot_spec by exact Hn.
  destruct (Z.testbit x n), (Z.testbit m n), (Z.testbit k n);
    cbn in *; congruence.
Qed.

Lemma land_lor_within (x m k : Z) :
  Z.land m k = k -> Z.land (Z.lor x m) k = k.
Proof.
  intros Hd. apply Z.bits_inj'. intros n Hn.
  pose proof (land_bitwise m k k n Hd) as Hb.
  rewrite Z.land_spec, Z.lor_spec.
  destruct (Z.testbit x n), (Z.testbit m n), (Z.testbit k n);
    cbn in *; congruence.
Qed.

Lemma land_clear_within (x m k : Z) :
  Z.land m k = k -> Z.land (Z.land x (Z.lnot m)) k = 0.
Proof.
  intros Hd. apply Z.bits_inj'. intros n Hn.
  pose proof (land_bitwise m k k n Hd) as Hb.
  rewrite !Z.land_spec, Z.lnot_spec, Z.bits_0 by exact Hn.
  destruct (Z.testbit x n), (Z.testbit m n), (Z.testbit k n);
    cbn in *; congruence.
Qed.

Lemma GetBaudRate_case_decodes (baud_rate : BaudRate) (speed : Z) :
  SetBaudRate_case baud_rate = Some speed ->
  GetBaudRate_case speed = baud_rate.
Proof. destruct baud_rate; intros [= <-]; reflexivity. Qed.

Lemma nth_insert_eq (l : list Z) (i : nat) (x d : Z) :
  (i < length l)%nat -> nth i (<[i := x]> l) d = x.
Proof.
  intros Hi. rewrite nth_lookup, list_lookup_insert_eq by exact Hi.
  reflexivity.
Qed.

Lemma nth_insert_ne (l : list Z) (i j : nat) (x d : Z) :
  i <> j -> nth j (<[i := x]> l) d = nth j l d.
Proof.
  intros Hij. now rewrite !nth_lookup, list_lookup_insert_ne by exact Hij.
Qed.

(** X8: the two tables of the baud rate agree: [GetBaudRate] decodes the
    speed code of each rate [SetBaudRate] accepts to that rate, and a
    speed it decodes to a rate is the code [SetBaudRate] uses for it. *)
Theorem baud_tables_agree (baud_rate : BaudRate) (speed : Z) :
  (SetBaudRate_case baud_rate = Some speed ->
     GetBaudRate_case speed = baud_rate)
  /\ (GetBaudRate_case speed = baud_rate -> baud_rate <> BAUD_INVALID ->
      SetBaudRate_case baud_rate = Some speed).
Proof.
  split.
  - apply GetBaudRate_case_decodes.
  - unfold GetBaudRate_case.
    repeat match goal with
           | |- context [?a =? ?b] =>
               destruct (Z.eqb_spec a b) as [-> | _];
               [intros <- _; reflexivity |]
           end.
    intros <- Hne. now contradict Hne.
Qed.

Lemma baud_tables_agree_witness :
  GetBaudRate_case Sys.B115200 = BAUD_115200
  /\ SetBaudRate_case BAUD_9600 = Some 13.
Proof.
  split.
  - apply (proj1 (baud_tables_agree BAUD_115200 Sys.B115200)). reflexivity.
  - apply (proj2 (baud_tables_agree BAUD_9600 13)); [reflexivity | discriminate].
Defined.

Section Codec.

Context {W : Type} `{Posix W}.

Ltac setter_cases E :=
  repeat match type of E with
         | context [match ?x with _ => _ end] => destruct x eqn:?
         end;
  injection E as <- <-; try congruence.

Ltac written_back Hkeep :=
  unfold device_keeps in Hkeep;
  match goal with
  | Hs : tcsetattr _ _ _ _ = (?z, _), Hz : (-1 =? ?z) = false |- _ =>
      apply Z.eqb_neq in Hz; apply Hkeep in Hs; [| congruence]
  end.

(** X9: the setters refuse what they do not support before anything is
    written: [SetBaudRate] with a rate above 115200 or the invalid
    sentinel, [SetParity] with the invalid sentinel, [SetNumOfStopBits]
    with a count other than 1 or 2, and [SetVMin], [SetVTime] with a
    value outside [0, 255] return their failure value and leave the world
    as it was. *)
Theorem setters_reject_unsupported (s : Implementation) (w : W) :
  (forall baud_rate, SetBaudRate_case baud_rate = None ->
     SetBaudRate baud_rate s w = (BAUD_INVALID, w))
  /\ SetParity PARITY_INVALID s w = (PARITY_INVALID, w)
  /\ (forall stop_bits, stop_bits <> 1 -> stop_bits <> 2 ->
        SetNumOfStopBits stop_bits s w = (0, w))
  /\ (forall vmin, vmin < 0 \/ 255 < vmin -> SetVMin vmin s w = (-1, w))
  /\ (forall vtime, vtime < 0 \/ 255 < vtime -> SetVTime vtime s w = (-1, w)).
Proof.
  repeat split.
  - intros baud_rate Hcase. unfold SetBaudRate. rewrite Hcase.
    now destruct (-1 =? mFileDescriptor s).
  - unfold SetParity. destruct (-1 =? mFileDescriptor s); [reflexivity|].
    now destruct (tcgetattr (mFileDescriptor s) w).
  - intros stop_bits H1 H2. unfold SetNumOfStopBits.
    destruct (-1 =? mFileDescriptor s); [reflexivity|].
    destruct (tcgetattr (mFileDescriptor s) w); [|reflexivity].
    now rewrite (proj2 (Z.eqb_neq stop_bits 1)),
      (proj2 (Z.eqb_neq stop_bits 2)).
  - intros vmin Hv. unfold SetVMin.
    destruct (-1 =? mFileDescriptor s); [reflexivity|].
    replace ((vmin <? 0) || (vmin >? 255)) with true; [reflexivity|].
    symmetry. apply orb_true_iff. rewrite Z.ltb_lt, Z.gtb_lt. exact Hv.
  - intros vtime Hv. unfold SetVTime.
    destruct (-1 =? mFileDescriptor s); [reflexivity|].
    replace ((vtime <? 0) || (vtime >? 255)) with true; [reflexivity|].
    symmetry. apply orb_true_iff. rewrite Z.ltb_lt, Z.gtb_lt. exact Hv.
Qed.

(** X10: the stop-bit functions answer 0, 1 or 2 and nothing else: in
    particular [SetNumOfStopBits] never answers -1, the value
    [SetParametersToDefault] tests its result against. *)
Theorem stop_bits_results (stop_bits : Z) (s : Implementation) (w : W) :
  (GetNumOfStopBits s w = 0 \/ GetNumOfStopBits s w = 1
   \/ GetNumOfStopBits s w = 2)
  /\ ((SetNumOfStopBits stop_bits s w).1 = 0
      \/ (SetNumOfStopBits stop_bits s w).1 = 1
      \/ (SetNumOfStopBits stop_bits s w).1 = 2)
  /\ (-1 =? (SetNumOfStopBits stop_bits s w).1) = false.
Proof.
  assert (Hget : forall w0 : W,
             GetNumOfStopBits s w0 = 0 \/ GetNumOfStopBits s w0 = 1
             \/ GetNumOfStopBits s w0 = 2).
  { intros w0. unfold GetNumOfStopBits.
    destruct (-1 =? mFileDescriptor s); [auto|].
    destruct (tcgetattr (mFileDescriptor s) w0) as [t|]; [|auto].
    destruct (flag_set (c_cflag t) Sys.CSTOPB); auto. }
  assert (Hset : (SetNumOfStopBits stop_bits s w).1 = 0
                 \/ (SetNumOfStopBits stop_bits s w).1 = 1
                 \/ (SetNumOfStopBits stop_bits s w).1 = 2).
  { unfold SetNumOfStopBits.
    repeat match goal with
           | |- context [match ?x with _ => _ end] => destruct x eqn:?
           end; cbn [fst]; auto. }
  split; [apply Hget | split; [exact Hset|]].
  destruct Hset as [-> | [-> | ->]]; reflexivity.
Qed.

Ltac bits :=
  repeat first
    [ rewrite land_clear_then_set by reflexivity
    | rewrite land_clear_disjoint by reflexivity
    | rewrite land_lor_disjoint by reflexivity
    | rewrite land_lor_within by reflexivity
    | rewrite land_clear_within by reflexivity ].

Ltac read_back :=
  unfold GetParity, GetCharSize, GetNumOfStopBits, GetFlowControl, GetVMin,
    GetVTime;
  repeat match goal with
         | H : (-1 =? mFileDescriptor _) = false |- _ => rewrite H
         end;
  repeat match goal with
         | H : tcgetattr _ _ = Some _ |- _ => rewrite H
         end;
  unfold cc, flag_set;
  cbn [c_iflag c_oflag c_cflag c_lflag c_line c_cc
       set_c_iflag set_c_cflag set_c_cc];
  bits.

(** X11: [SetParity] on a device that keeps the block written: when it does
    not fail, the result and what [GetParity] then reads are the parity
    requested, and character size, stop bits, flow control, VMIN and VTIME
    read as they did before. *)
Theorem SetParity_effect (parity : ParityEnum) (s : Implementation)
    (w w' : W) (r : ParityEnum) :
  device_keeps (mFileDescriptor s) w ->
  SetParity parity s w = (r, w') -> r <> PARITY_INVALID ->
  r = parity /\ GetParity s w' = parity
  /\ GetCharSize s w' = GetCharSize s w
  /\ GetNumOfStopBits s w' = GetNumOfStopBits s w
  /\ GetFlowControl s w' = GetFlowControl s w
  /\ GetVMin s w' = GetVMin s w
  /\ GetVTime s w' = GetVTime s w.
Proof.
  intros Hkeep E Hr. unfold SetParity in E. setter_cases E;
    written_back Hkeep; clear Hr; read_back; repeat split.
Qed.

(** X12: [SetNumOfStopBits] on a device that keeps the block written: when it
    does not fail, the result and what [GetNumOfStopBits] then reads are
    the count requested, and character size, parity, flow control, VMIN
    and VTIME read as they did before. *)
Theorem SetNumOfStopBits_effect (stop_bits : Z) (s : Implementation)
    (w w' : W) (r : Z) :
  device_keeps (mFileDescriptor s) w ->
  SetNumOfStopBits stop_bits s w = (r, w') -> r <> 0 ->
  r = stop_bits /\ GetNumOfStopBits s w' = stop_bits
  /\ GetCharSize s w' = GetCharSize s w
  /\ GetParity s w' = GetParity s w
  /\ GetFlowControl s w' = GetFlowControl s w
  /\ GetVMin s w' = GetVMin s w
  /\ GetVTime s w' = GetVTime s w.
Proof.
  intros Hkeep E Hr. unfold SetNumOfStopBits in E. setter_cases E;
    written_back Hkeep; clear Hr;
    repeat match goal with
           | H : (_ =? _) = true |- _ => apply Z.eqb_eq in H; subst
           end;
    read_back; repeat split.
Qed.

(** X13: [SetCharSize] on a device that keeps the block written: when it does
    not fail, the result and what [GetCharSize] then reads are the size
    requested, and stop bits, parity, flow control, VMIN and VTIME read as
    they did before. *)
Theorem SetCharSize_effect (char_size : CharSize) (s : Implementation)
    (w w' : W) (r : CharSize) :
  device_keeps (mFileDescriptor s) w ->
  SetCharSize char_size s w = (r, w') -> r <> CHAR_SIZE_INVALID ->
  r = char_size /\ GetCharSize s w' = char_size
  /\ GetNumOfStopBits s w' = GetNumOfStopBits s w
  /\ GetParity s w' = GetParity s w
  /\ GetFlowControl s w' = GetFlowControl s w
  /\ GetVMin s w' = GetVMin s w
  /\ GetVTime s w' = GetVTime s w.
Proof.
  intros Hkeep E Hr. unfold SetCharSize in E.
  destruct char_size; cbn [SetCharSize_case] in E;
    try match type of E with
        | context [decide ?P] => destruct (decide P); try congruence
        end;
    setter_cases E; written_back Hkeep; clear Hr; read_back; repeat split.
Qed.

Ltac cc_length Hlen :=
  match type of Hlen with
  | (forall t0, Some ?t = Some t0 -> _) => specialize (Hlen t eq_refl)
  end.

Ltac control_chars Hlen :=
  repeat first
    [ rewrite nth_insert_eq by (rewrite ?length_insert, Hlen; cbv; lia)
    | rewrite nth_insert_ne by (cbv; lia) ].

(** X14: [SetFlowControl] on a device that keeps the block written and whose
    attribute block has its [NCCS] control characters: when it does not
    fail, the result and what [GetFlowControl] then reads are the mode
    requested, where the invalid sentinel is taken as a request for no
    flow control; character size, stop bits, parity, VMIN and VTIME read
    as they did after the flush that precedes the write. *)
Theorem SetFlowControl_effect (flow_c : FlowControlEnum)
    (s : Implementation) (w w' : W) (r : FlowControlEnum) :
  let w0 := (tcflush (mFileDescriptor s) Sys.TCIOFLUSH w).2 in
  device_keeps (mFileDescriptor s) w0 ->
  (forall t, tcgetattr (mFileDescriptor s) w0 = Some t ->
             length (c_cc t) = Sys.NCCS) ->
  SetFlowControl flow_c s w = (r, w') -> r <> FLOW_CONTROL_INVALID ->
  r = (if decide (flow_c = FLOW_CONTROL_INVALID) then FLOW_CONTROL_NONE
       else flow_c)
  /\ GetFlowControl s w' = r
  /\ GetCharSize s w' = GetCharSize s w0
  /\ GetNumOfStopBits s w' = GetNumOfStopBits s w0
  /\ GetParity s w' = GetParity s w0
  /\ GetVMin s w' = GetVMin s w0
  /\ GetVTime s w' = GetVTime s w0.
Proof.
  intros w0 Hkeep Hlen E Hr. subst w0. unfold SetFlowControl in E.
  destruct (tcflush (mFileDescriptor s) Sys.TCIOFLUSH w) as [r0 w0].
  cbn [snd] in Hkeep, Hlen |- *.
  destruct flow_c;
    repeat match type of E with
           | context [decide ?P] => destruct (decide P); try congruence
           end;
    setter_cases E; written_back Hkeep; clear Hr;
    cc_length Hlen;
    (split; [| split; [reflexivity|]]);
    read_back; control_chars Hlen; unfold CTRL_Q, CTRL_S;
    repeat split.
Qed.

(** X15: [SetVMin] and [SetVTime] on a device that keeps the block written
    and whose attribute block has its [NCCS] control characters: when
    [SetVMin] does not fail, [GetVMin] then reads the value requested,
    and VTIME, character size, stop bits, parity and flow control read as
    they did before; likewise for [SetVTime] and VMIN. *)
Theorem SetVMin_SetVTime_effect (v : Z) (s : Implementation)
    (w w' : W) (r : Z) :
  device_keeps (mFileDescriptor s) w ->
  (forall t, tcgetattr (mFileDescriptor s) w = Some t ->
             length (c_cc t) = Sys.NCCS) ->
  r <> -1 ->
  (SetVMin v s w = (r, w') ->
     GetVMin s w' = v /\ GetVTime s w' = GetVTime s w
     /\ GetCharSize s w' = GetCharSize s w
     /\ GetNumOfStopBits s w' = GetNumOfStopBits s w
     /\ GetParity s w' = GetParity s w
     /\ GetFlowControl s w' = GetFlowControl s w)
  /\ (SetVTime v s w = (r, w') ->
        GetVTime s w' = v /\ GetVMin s w' = GetVMin s w
        /\ GetCharSize s w' = GetCharSize s w
        /\ GetNumOfStopBits s w' = GetNumOfStopBits s w
        /\ GetParity s w' = GetParity s w
        /\ GetFlowControl s w' = GetFlowControl s w).
Proof.
  intros Hkeep Hlen Hr.
  split; intros E; [unfold SetVMin in E | unfold SetVTime in E];
    setter_cases E; written_back Hkeep; clear Hr;
    cc_length Hlen;
    match goal with
    | Hv : (_ <? 0) || (_ >? 255) = false |- _ =>
        apply orb_false_iff in Hv as [Hv0 Hv1];
        apply Z.ltb_ge in Hv0;
        assert (Hv2 : v <= 255)
          by (destruct (Z.gtb_spec v 255); [discriminate | lia])
    end;
    read_back; control_chars Hlen;
    rewrite ?Z.mod_small by lia; repeat split.
Qed.

(** X16: [SetBaudRate] on a device that keeps the block written, with a libc
    whose speed functions read back the speed code stored: when it does
    not fail, the result and what [GetBaudRate] then reads are the rate
    requested. *)
Theorem SetBaudRate_effect (baud_rate : BaudRate) (s : Implementation)
    (w w' : W) (r : BaudRate) :
  device_keeps (mFileDescriptor s) w ->
  (forall speed, SetBaudRate_case baud_rate = Some speed ->
                 speed_kept speed) ->
  SetBaudRate baud_rate s w = (r, w') -> r <> BAUD_INVALID ->
  r = baud_rate /\ GetBaudRate s w' = baud_rate.
Proof.
  intros Hkeep Hspeed E Hr. unfold SetBaudRate in E.
  destruct (-1 =? mFileDescriptor s) eqn:Efd; [congruence|].
  destruct (SetBaudRate_case baud_rate) as [speed|] eqn:Ecase;
    [|congruence].
  destruct (tcgetattr (mFileDescriptor s) w) as [t|]; [|congruence].
  destruct (tcsetattr _ _ _ w) as [rc w1] eqn:Hset.
  destruct (Z.eqb_spec (-1) rc) as [Hrc|Hrc]; [congruence|].
  injection E as <- <-.
  unfold device_keeps in Hkeep. apply Hkeep in Hset; [|congruence].
  destruct (Hspeed speed eq_refl t) as [Hi Ho].
  assert (Hget : GetBaudRate s w1 = baud_rate).
  { unfold GetBaudRate. rewrite Efd, Hset, Hi, Ho, Z.eqb_refl. cbn [negb].
    now apply GetBaudRate_case_decodes. }
  now rewrite Hget.
Qed.

End Codec.

(** * Further properties of opening and closing *)

Section Reopen.

Context {W : Type} `{Posix W} (hdr : Header).

(** [open] only ever changes the descriptor of the object. *)
Lemma open_keeps_putback filename mode (s s1 : Implementation) (w w1 : W)
    (ok : bool) :
  open hdr filename mode s w = (ok, s1, w1) ->
  mPutbackChar s1 = mPutbackChar s
  /\ mPutbackAvailable s1 = mPutbackAvailable s.
Proof.
  unfold open.
  repeat match goal with
         | |- context [match ?x with _ => _ end] => destruct x eqn:?
         end; intros [= <- <- <-]; auto.
Qed.

(** So does [close]. *)
Lemma close_keeps_putback (s s1 : Implementation) (w w1 : W) (ok : bool) :
  close s w = (ok, s1, w1) ->
  mPutbackChar s1 = mPutbackChar s
  /\ mPutbackAvailable s1 = mPutbackAvailable s.
Proof.
  unfold close.
  repeat match goal with
         | |- context [match ?x with _ => _ end] => destruct x eqn:?
         end; intros [= <- <- <-]; auto.
Qed.

(** X17: [open] accepts three open modes only: with any mode other than
    [in], [out] and [in | out] (so also with [in | binary]) it returns
    the null pointer without a system call and leaves the object as it
    is. *)
Theorem open_unsupported_mode filename mode (s : Implementation) (w : W) :
  mode <> Z.lor Sys.ios_in Sys.ios_out ->
  mode <> Sys.ios_in -> mode <> Sys.ios_out ->
  open hdr filename mode s w = (false, s, w).
Proof.
  intros Hrw Hin Hout. unfold open, open_flags.
  destruct (negb (Bool.eqb (is_open s) false)); [reflexivity|].
  now rewrite (proj2 (Z.eqb_neq _ _) Hrw), (proj2 (Z.eqb_neq _ _) Hin),
    (proj2 (Z.eqb_neq _ _) Hout).
Qed.

(** X18: when the system's [open] fails, [open] returns the null pointer and
    the stream buffer is still not open, with its putback cell as
    before; the flags it asked for always carry [O_NOCTTY]. *)
Theorem open_os_failure filename mode flags (s : Implementation) (w w1 : W) :
  is_open s = false ->
  open_flags mode = Some flags ->
  sys_open filename (Z.lor flags Sys.O_NOCTTY) w = (-1, w1) ->
  open hdr filename mode s w = (false, s, w1)
  /\ is_open (open hdr filename mode s w).1.2 = false
  /\ flag_set (Z.lor flags Sys.O_NOCTTY) Sys.O_NOCTTY = true.
Proof.
  intros Hc Hm Hopen.
  assert (Hs : set_mFileDescriptor (-1) s = s).
  { pose proof (not_open_fd _ Hc) as Hfd. apply Z.eqb_eq in Hfd.
    destruct s as [ch av fd]. cbn in Hfd |- *. now subst fd. }
  assert (E : open hdr filename mode s w = (false, s, w1)).
  { unfold open. rewrite Hc, Hm, Hopen, Hs. cbn [Bool.eqb negb].
    now rewrite (not_open_fd _ Hc). }
  rewrite E. cbn [fst snd].
  repeat split; [exact Hc|]. now apply flag_set_after_set.
Qed.

(** X19: the putback cell outlives the port: neither [close] nor [open]
    clears it, so when a byte is pending, after a [close] and an [open]
    that both succeed the byte is still pending and the first
    [underflow] on the new port returns it without reading the
    device. *)
Theorem putback_survives_reopen filename mode (s s1 s2 : Implementation)
    (w w1 w2 : W) :
  close s w = (true, s1, w1) ->
  open hdr filename mode s1 w1 = (true, s2, w2) ->
  mPutbackAvailable s = true ->
  mPutbackAvailable s2 = true
  /\ mPutbackChar s2 = mPutbackChar s
  /\ forall w3 : W,
       underflow s2 w3
       = (traits_type.to_int_type (mPutbackChar s), s2, w3).
Proof.
  intros Hclose Hopen Ha.
  destruct (close_keeps_putback _ _ _ _ _ Hclose) as [Hc1 Ha1].
  destruct (open_keeps_putback _ _ _ _ _ _ _ Hopen) as [Hc2 Ha2].
  assert (Ha' : mPutbackAvailable s2 = true) by congruence.
  assert (Hc' : mPutbackChar s2 = mPutbackChar s) by congruence.
  split; [exact Ha' | split; [exact Hc'|]].
  intros w3. rewrite <- Hc'.
  apply underflow_pending; [|exact Ha'].
  exact (open_success_is_open hdr _ _ _ _ _ _ Hopen).
Qed.

(** X20: [InitializeSerialPort] answers 0 or -1, and when it answers 0 its
    last system call asked for the descriptor's flags with [O_NONBLOCK]
    cleared, after [SetParametersToDefault] had answered 0. *)
Theorem InitializeSerialPort_result (s : Implementation) (w w' : W) (r : Z) :
  InitializeSerialPort hdr s w = (r, w') ->
  (r = 0 \/ r = -1)
  /\ (r = 0 ->
      is_open s = true
      /\ exists w2 w3 flags r4,
           SetParametersToDefault hdr s w2 = (0, w3)
           /\ fcntl_setfl (mFileDescriptor s) flags w3 = (r4, w')
           /\ r4 <> -1
           /\ flag_set flags Sys.O_NONBLOCK = false).
Proof.
  unfold InitializeSerialPort.
  destruct (-1 =? mFileDescriptor s) eqn:Efd;
    [intros [= <- <-]; split; [auto | discriminate] |].
  destruct (fcntl_setfl _ _ w) as [r1 w1].
  destruct (-1 =? r1); [intros [= <- <-]; split; [auto | discriminate] |].
  destruct (tcflush _ _ w1) as [r2 w2].
  destruct (-1 =? r2); [intros [= <- <-]; split; [auto | discriminate] |].
  destruct (SetParametersToDefault hdr s w2) as [r3 w3] eqn:Edef.
  destruct (-1 =? r3) eqn:E3;
    [intros [= <- <-]; split; [auto | discriminate] |].
  destruct (fcntl_setfl _ _ w3) as [r4 w4] eqn:Eset.
  destruct (Z.eqb_spec (-1) r4) as [E4|E4];
    intros [= <- <-]; (split; [auto|]); [discriminate|].
  intros _. split; [unfold is_open; now rewrite Efd|].
  assert (Hr3 : r3 = 0).
  { revert Edef E3. unfold SetParametersToDefault.
    repeat match goal with
           | |- context [match ?x with _ => _ end] => destruct x eqn:?
           end; intros [= <- <-]; try reflexivity; discriminate. }
  subst r3. exists w2, w3. eexists. exists r4.
  split; [exact Edef | split; [exact Eset | split; [congruence|]]].
  apply flag_set_after_clear.
Qed.

End Reopen.

(** * The further properties on the simulated terminal *)

Lemma sim_device_keeps (fd : Z) (w : Sim) :
  sim_keep_cc w = false -> device_keeps fd w.
Proof.
  intros Hk t r w'. cbn [tcsetattr tcgetattr Sim_Posix].
  unfold sim_tcsetattr, sim_tcgetattr, sim_next_fault.
  destruct w as [attr fl rx [|[|] plan] keep]; cbn in Hk |- *; subst keep;
    intros [= <- <-] Hr; try reflexivity; now contradict Hr.
Qed.

Lemma sim_speed_kept (speed : Z) :
  Z.land speed Sys.CBAUD = speed -> speed_kept (W := Sim) speed.
Proof.
  intros Hs t. cbn [cfgetispeed cfgetospeed cfsetispeed cfsetospeed Sim_Posix].
  unfold sim_cfgetspeed, sim_cfsetspeed. cbn [c_cflag set_c_cflag].
  now rewrite land_clear_then_set by exact Hs.
Qed.

Lemma sim_tty_cc_length (fd : Z) (t : termios) :
  tcgetattr fd sim_tty = Some t -> length (c_cc t) = Sys.NCCS.
Proof. intros [= <-]. reflexivity. Qed.

Lemma underflow_result_witness :
  (200 = traits_type.eof /\ sim_port 200 true = sim_port 0 false
   /\ (is_open (sim_port 0 false) = true ->
       mPutbackAvailable (sim_port 0 false) = false))
  \/ (0 <= 200 < 256 /\ is_open (sim_port 200 true) = true
      /\ mPutbackAvailable (sim_port 200 true) = true
      /\ traits_type.to_int_type (mPutbackChar (sim_port 200 true)) = 200
      /\ mFileDescriptor (sim_port 200 true)
         = mFileDescriptor (sim_port 0 false)).
Proof.
  apply (underflow_result (sim_port 0 false) (sim_port 200 true)
           (sim_with_rx [200] sim_tty) sim_tty 200).
  reflexivity.
Defined.

Lemma underflow_then_uflow_witness :
  underflow (sim_port 200 true) sim_tty = (200, sim_port 200 true, sim_tty)
  /\ uflow (sim_port 200 true) sim_tty
     = (200, set_mPutbackAvailable false (sim_port 200 true), sim_tty)
  /\ mPutbackAvailable (set_mPutbackAvailable false (sim_port 200 true))
     = false.
Proof.
  apply (underflow_then_uflow (sim_port 0 false) (sim_port 200 true)
           (sim_with_rx [200] sim_tty) sim_tty 200);
    [reflexivity | discriminate].
Defined.

Lemma pbackfail_then_uflow_witness :
  (pbackfail 65 (sim_port 0 false)).1 = 65
  /\ uflow (pbackfail 65 (sim_port 0 false)).2 sim_tty
     = (65, (uflow (pbackfail 65 (sim_port 0 false)).2 sim_tty).1.2, sim_tty)
  /\ mPutbackAvailable
       (uflow (pbackfail 65 (sim_port 0 false)).2 sim_tty).1.2 = false
  /\ (pbackfail 66
        (uflow (pbackfail 65 (sim_port 0 false)).2 sim_tty).1.2).1 = 66
  /\ mPutbackChar
       (pbackfail 66
          (uflow (pbackfail 65 (sim_port 0 false)).2 sim_tty).1.2).2 = 66.
Proof.
  apply (pbackfail_then_uflow (sim_port 0 false) sim_tty 65 66);
    [reflexivity | reflexivity | lia | lia].
Defined.

Lemma uflow_reads_through_witness :
  uflow (sim_port 0 false) (sim_with_rx [65] sim_tty)
  = (65, set_mPutbackAvailable false (set_mPutbackChar 65 (sim_port 0 false)),
     sim_tty).
Proof.
  apply (uflow_reads_through (sim_port 0 false) (sim_with_rx [65] sim_tty)
           sim_tty 65); reflexivity.
Defined.

Lemma xsputn_result_witness :
  xsputn [104; 105; 33] 0 (sim_port 0 false) sim_tty = (0, sim_tty)
  /\ exists r,
       sys_write 3 (take (Z.to_nat 2) [104; 105; 33]) sim_tty
       = (r, (xsputn [104; 105; 33] 2 (sim_port 0 false) sim_tty).2)
       /\ (xsputn [104; 105; 33] 2 (sim_port 0 false) sim_tty).1
          = (if r =? -1 then 0 else r)
       /\ 0 <= (xsputn [104; 105; 33] 2 (sim_port 0 false) sim_tty).1 <= 2.
Proof.
  split.
  - apply (proj1 (xsputn_result [104; 105; 33] 0 (sim_port 0 false) sim_tty)).
    right. lia.
  - apply (proj2 (xsputn_result [104; 105; 33] 2 (sim_port 0 false) sim_tty));
      [reflexivity | lia].
Defined.

Lemma overflow_result_witness :
  overflow traits_type.eof (sim_port 0 false) sim_tty
  = (traits_type.eof, sim_tty)
  /\ exists r,
       sys_write 3 [321 mod 256] sim_tty
       = (r, (overflow 321 (sim_port 0 false) sim_tty).2)
       /\ (r <> 1 ->
           (overflow 321 (sim_port 0 false) sim_tty).1 = traits_type.eof)
       /\ (r = 1 -> (overflow 321 (sim_port 0 false) sim_tty).1 = 321)
       /\ ((overflow 321 (sim_port 0 false) sim_tty).1 <> traits_type.eof ->
           r = 1).
Proof.
  split.
  - apply (proj1 (overflow_result traits_type.eof (sim_port 0 false) sim_tty)).
    now right.
  - apply (proj2 (overflow_result 321 (sim_port 0 false) sim_tty));
      [reflexivity | discriminate].
Defined.

Lemma closed_port_stream_witness :
  showmanyc Implementation_new sim_tty = (-1, Implementation_new, sim_tty)
  /\ uflow (mk_Implementation 65 true (-1)) sim_tty
     = (traits_type.eof, mk_Implementation 65 false (-1), sim_tty).
Proof.
  split.
  - apply (closed_port_stream Implementation_new sim_tty). reflexivity.
  - apply (closed_port_stream (mk_Implementation 65 true (-1)) sim_tty).
    reflexivity.
Defined.

Lemma closed_port_attributes_witness :
  GetNumOfStopBits Implementation_new sim_tty = 0
  /\ SetVMin 1 Implementation_new sim_tty = (-1, sim_tty)
  /\ InitializeSerialPort sim_header Implementation_new sim_tty
     = (-1, sim_tty).
Proof.
  pose proof (closed_port_attributes sim_header Implementation_new sim_tty
                eq_refl) as (Hget & _ & _ & _ & _ & _ & Hvmin & _ & _ & Hinit).
  destruct Hget as (_ & _ & Hstop & _).
  split; [exact Hstop | split; [apply Hvmin | exact Hinit]].
Defined.

Lemma setters_reject_unsupported_witness :
  SetBaudRate BAUD_230400 (sim_port 0 false) sim_tty = (BAUD_INVALID, sim_tty)
  /\ SetNumOfStopBits 3 (sim_port 0 false) sim_tty = (0, sim_tty)
  /\ SetVMin 256 (sim_port 0 false) sim_tty = (-1, sim_tty)
  /\ SetVTime (-1) (sim_port 0 false) sim_tty = (-1, sim_tty).
Proof.
  pose proof (setters_reject_unsupported (sim_port 0 false) sim_tty)
    as (Hbaud & _ & Hstop & Hvmin & Hvtime).
  split; [| split; [| split]].
  - apply Hbaud. reflexivity.
  - apply Hstop; lia.
  - apply Hvmin. lia.
  - apply Hvtime. lia.
Defined.

Lemma SetParity_effect_witness :
  GetParity (sim_port 0 false)
            (SetParity PARITY_ODD (sim_port 0 false) sim_tty).2 = PARITY_ODD
  /\ GetCharSize (sim_port 0 false)
                 (SetParity PARITY_ODD (sim_port 0 false) sim_tty).2
     = GetCharSize (sim_port 0 false) sim_tty.
Proof.
  assert (Hr : (SetParity PARITY_ODD (sim_port 0 false) sim_tty).1
               <> PARITY_INVALID) by (vm_compute; discriminate).
  destruct (SetParity_effect PARITY_ODD (sim_port 0 false) sim_tty _ _
              (sim_device_keeps 3 sim_tty eq_refl)
              (surjective_pairing _) Hr)
    as (_ & Hparity & Hsize & _).
  split; assumption.
Defined.

Lemma SetNumOfStopBits_effect_witness :
  GetNumOfStopBits (sim_port 0 false)
                   (SetNumOfStopBits 2 (sim_port 0 false) sim_tty).2 = 2
  /\ GetParity (sim_port 0 false)
               (SetNumOfStopBits 2 (sim_port 0 false) sim_tty).2
     = GetParity (sim_port 0 false) sim_tty.
Proof.
  assert (Hr : (SetNumOfStopBits 2 (sim_port 0 false) sim_tty).1 <> 0)
    by (vm_compute; discriminate).
  destruct (SetNumOfStopBits_effect 2 (sim_port 0 false) sim_tty _ _
              (sim_device_keeps 3 sim_tty eq_refl)
              (surjective_pairing _) Hr)
    as (_ & Hstop & _ & Hparity & _).
  split; assumption.
Defined.

Lemma SetCharSize_effect_witness :
  GetCharSize (sim_port 0 false)
              (SetCharSize CHAR_SIZE_7 (sim_port 0 false) sim_tty).2
  = CHAR_SIZE_7
  /\ GetFlowControl (sim_port 0 false)
                    (SetCharSize CHAR_SIZE_7 (sim_port 0 false) sim_tty).2
     = GetFlowControl (sim_port 0 false) sim_tty.
Proof.
  assert (Hr : (SetCharSize CHAR_SIZE_7 (sim_port 0 false) sim_tty).1
               <> CHAR_SIZE_INVALID) by (vm_compute; discriminate).
  destruct (SetCharSize_effect CHAR_SIZE_7 (sim_port 0 false) sim_tty _ _
              (sim_device_keeps 3 sim_tty eq_refl)
              (surjective_pairing _) Hr)
    as (_ & Hsize & _ & _ & Hflow & _).
  split; assumption.
Defined.

Lemma SetFlowControl_effect_witness :
  (SetFlowControl FLOW_CONTROL_SOFT (sim_port 0 false) sim_tty).1
  = FLOW_CONTROL_SOFT
  /\ (SetFlowControl FLOW_CONTROL_INVALID (sim_port 0 false) sim_tty).1
     = FLOW_CONTROL_NONE.
Proof.
  assert (Hsoft : (SetFlowControl FLOW_CONTROL_SOFT (sim_port 0 false)
                                  sim_tty).1 <> FLOW_CONTROL_INVALID)
    by (vm_compute; discriminate).
  assert (Hinv : (SetFlowControl FLOW_CONTROL_INVALID (sim_port 0 false)
                                 sim_tty).1 <> FLOW_CONTROL_INVALID)
    by (vm_compute; discriminate).
  split.
  - apply (SetFlowControl_effect FLOW_CONTROL_SOFT (sim_port 0 false)
             sim_tty _ _ (sim_device_keeps 3 sim_tty eq_refl)
             (sim_tty_cc_length 3) (surjective_pairing _) Hsoft).
  - apply (SetFlowControl_effect FLOW_CONTROL_INVALID (sim_port 0 false)
             sim_tty _ _ (sim_device_keeps 3 sim_tty eq_refl)
             (sim_tty_cc_length 3) (surjective_pairing _) Hinv).
Defined.

Lemma SetVMin_SetVTime_effect_witness :
  GetVMin (sim_port 0 false) (SetVMin 5 (sim_port 0 false) sim_tty).2 = 5
  /\ GetVTime (sim_port 0 false) (SetVMin 5 (sim_port 0 false) sim_tty).2
     = GetVTime (sim_port 0 false) sim_tty.
Proof.
  assert (Hr : (SetVMin 5 (sim_port 0 false) sim_tty).1 <> -1)
    by (vm_compute; discriminate).
  destruct (proj1 (SetVMin_SetVTime_effect 5 (sim_port 0 false) sim_tty _ _
                     (sim_device_keeps 3 sim_tty eq_refl)
                     (sim_tty_cc_length 3) Hr)
              (surjective_pairing _))
    as (Hvmin & Hvtime & _).
  split; assumption.
Defined.

Lemma SetBaudRate_effect_witness :
  (SetBaudRate BAUD_115200 (sim_port 0 false) sim_tty).1 = BAUD_115200
  /\ GetBaudRate (sim_port 0 false)
                 (SetBaudRate BAUD_115200 (sim_port 0 false) sim_tty).2
     = BAUD_115200.
Proof.
  assert (Hr : (SetBaudRate BAUD_115200 (sim_port 0 false) sim_tty).1
               <> BAUD_INVALID) by (vm_compute; discriminate).
  assert (Hspeed : forall speed,
             SetBaudRate_case BAUD_115200 = Some speed ->
             speed_kept (W := Sim) speed).
  { intros speed [= <-]. now apply sim_speed_kept. }
  apply (SetBaudRate_effect BAUD_115200 (sim_port 0 false) sim_tty _ _
           (sim_device_keeps 3 sim_tty eq_refl) Hspeed
           (surjective_pairing _) Hr).
Defined.

Lemma open_unsupported_mode_witness :
  open sim_header "/dev/ttyS0" (Z.lor Sys.ios_in 4) Implementation_new sim_tty
  = (false, Implementation_new, sim_tty).
Proof.
  apply (open_unsupported_mode sim_header "/dev/ttyS0" (Z.lor Sys.ios_in 4)
           Implementation_new sim_tty); discriminate.
Defined.

Lemma open_os_failure_witness :
  open sim_header "/dev/none" sim_mode_rw Implementation_new
       (sim_with_faults [true] sim_tty)
  = (false, Implementation_new, sim_tty)
  /\ is_open (open sim_header "/dev/none" sim_mode_rw Implementation_new
                   (sim_with_faults [true] sim_tty)).1.2 = false
  /\ flag_set (Z.lor Sys.O_RDWR Sys.O_NOCTTY) Sys.O_NOCTTY = true.
Proof.
  apply (open_os_failure sim_header "/dev/none" sim_mode_rw Sys.O_RDWR
           Implementation_new (sim_with_faults [true] sim_tty) sim_tty);
    reflexivity.
Defined.

Lemma putback_survives_reopen_witness :
  mPutbackAvailable (sim_port 65 true) = true
  /\ mPutbackChar (sim_port 65 true) = mPutbackChar (sim_port 65 true)
  /\ forall w3 : Sim,
       underflow (sim_port 65 true) w3
       = (traits_type.to_int_type (mPutbackChar (sim_port 65 true)),
          sim_port 65 true, w3).
Proof.
  apply (putback_survives_reopen sim_header "/dev/ttyS1" sim_mode_rw
           (sim_port 65 true) (mk_Implementation 65 true (-1))
           (sim_port 65 true) sim_tty sim_tty sim_tty_configured);
    [reflexivity | vm_compute; reflexivity | reflexivity].
Defined.

Lemma InitializeSerialPort_result_witness :
  (0 = 0 \/ 0 = -1)
  /\ (0 = 0 ->
      is_open (sim_port 0 false) = true
      /\ exists w2 w3 flags r4,
           SetParametersToDefault sim_header (sim_port 0 false) w2 = (0, w3)
           /\ fcntl_setfl (mFileDescriptor (sim_port 0 false)) flags w3
              = (r4, sim_tty_configured)
           /\ r4 <> -1
           /\ flag_set flags Sys.O_NONBLOCK = false).
Proof.
  apply (InitializeSerialPort_result sim_header (sim_port 0 false) sim_tty
           sim_tty_configured 0).
  vm_compute. reflexivity.
Defined.
